(** * csv_to_mysql.py: geometry normalisation and the chunked loader

    A shallow embedding of [src/csv_to_mysql.py].  Python [str] values are
    Rocq strings (characters with code points 0..255), exceptions are an
    explicit result type, the module-level logger and the locals of
    [import_data] are fields of an explicit run state, and the behaviour of
    the database, of the rejection file and of the clock is supplied as an
    environment. *)

From Stdlib Require Import String Ascii List ZArith NArith Bool Arith Lia.
From Stdlib Require Import DecimalString.
Import ListNotations.
Local Open Scope string_scope.
Local Open Scope list_scope.

(** ** Python results: a value or a raised exception *)

Inductive exn : Type :=
| AttributeError | ValueError | TypeError | KeyError | IndexError
| ZeroDivisionError | OSError | DBAPIError | ParserError.

Inductive res (A : Type) : Type :=
| Ret (a : A)
| Raise (e : exn).
Arguments Ret {A} a.
Arguments Raise {A} e.

Definition res_bind {A B} (m : res A) (k : A -> res B) : res B :=
  match m with
  | Ret a => k a
  | Raise e => Raise e
  end.

(** [try: m  except: h] (a bare [except], or [except Exception]). *)
Definition res_try {A} (m : res A) (h : exn -> res A) : res A :=
  match m with
  | Ret a => Ret a
  | Raise e => h e
  end.

Declare Scope res_scope.
Delimit Scope res_scope with res.
Notation "x <- m ;; k" := (res_bind m (fun x => k))
  (at level 61, m at next level, right associativity) : res_scope.

(** ** Characters and the string methods used by the source *)

Definition in_range (lo hi : nat) (c : ascii) : bool :=
  ((lo <=? nat_of_ascii c) && (nat_of_ascii c <=? hi))%nat.

(** [str.isspace] on one character, for code points below 256:
    TAB..CR, FS..US, SPACE, NEL and NBSP. *)
Definition py_isspace (c : ascii) : bool :=
  in_range 9 13 c || in_range 28 32 c
  || (nat_of_ascii c =? 133)%nat || (nat_of_ascii c =? 160)%nat.

Definition is_digit (c : ascii) : bool := in_range 48 57 c.

(** [Py_TOLOWER]: ASCII letters only. *)
Definition to_lower (c : ascii) : ascii :=
  if in_range 65 90 c then ascii_of_nat (nat_of_ascii c + 32) else c.

Fixpoint lstrip_by (p : ascii -> bool) (s : string) : string :=
  match s with
  | EmptyString => EmptyString
  | String c r => if p c then lstrip_by p r else s
  end.

Fixpoint rstrip_by (p : ascii -> bool) (s : string) : string :=
  match s with
  | EmptyString => EmptyString
  | String c r =>
      match rstrip_by p r with
      | EmptyString => if p c then EmptyString else String c EmptyString
      | String c' r' => String c (String c' r')
      end
  end.

(** [s.strip()] *)
Definition py_strip (s : string) : string :=
  rstrip_by py_isspace (lstrip_by py_isspace s).

(** [s.replace(c, "")] for a one-character [c]. *)
Fixpoint py_remove (c : ascii) (s : string) : string :=
  match s with
  | EmptyString => EmptyString
  | String a r => if Ascii.eqb a c then py_remove c r else String a (py_remove c r)
  end.

(** [s.split(c)] for a one-character separator: empty fields are kept and
    the result is never empty. *)
Fixpoint py_split_on (c : ascii) (s : string) : list string :=
  match s with
  | EmptyString => [EmptyString]
  | String a r =>
      if Ascii.eqb a c then EmptyString :: py_split_on c r
      else match py_split_on c r with
           | t :: ts => String a t :: ts
           | [] => [String a EmptyString]
           end
  end.

Definition cons_token (t : string) (ts : list string) : list string :=
  match t with
  | EmptyString => ts
  | _ => t :: ts
  end.

(** The token that starts at the head of [s] (empty when [s] starts with
    white space) and the tokens after it. *)
Fixpoint split_scan (s : string) : string * list string :=
  match s with
  | EmptyString => (EmptyString, [])
  | String c r =>
      let (t, ts) := split_scan r in
      if py_isspace c then (EmptyString, cons_token t ts) else (String c t, ts)
  end.

(** [s.split()]: maximal runs of non-space characters. *)
Definition py_split (s : string) : list string :=
  let (t, ts) := split_scan s in cons_token t ts.

(** [sep.join(parts)] *)
Definition py_join (sep : string) (parts : list string) : string :=
  String.concat sep parts.

(** ** [float(s)] on a string *)

(** The value denoted by the text, before rounding to a double:
    [FDec neg m e] is [(-1)^neg * m * 10^e]. *)
Inductive pyfloat : Type :=
| FNan
| FInf (neg : bool)
| FDec (neg : bool) (m : N) (e : Z).

(** Underscores may only stand between two digits; they are removed. *)
Fixpoint drop_underscores (prev : ascii) (s : string) : option string :=
  match s with
  | EmptyString => if Ascii.eqb prev "_" then None else Some EmptyString
  | String c r =>
      if Ascii.eqb c "_" then
        if is_digit prev then drop_underscores c r else None
      else if Ascii.eqb prev "_" && negb (is_digit c) then None
      else option_map (String c) (drop_underscores c r)
  end.

(** White space skipped around a float literal: the C-locale set, and NEL
    and NBSP which are first rewritten to a space. *)
Definition float_isspace (c : ascii) : bool :=
  in_range 9 13 c || (nat_of_ascii c =? 32)%nat
  || (nat_of_ascii c =? 133)%nat || (nat_of_ascii c =? 160)%nat.

Definition take_sign (s : string) : bool * string :=
  match s with
  | String "-" r => (true, r)
  | String "+" r => (false, r)
  | _ => (false, s)
  end.

Fixpoint span_digits (s : string) : string * string :=
  match s with
  | EmptyString => (EmptyString, EmptyString)
  | String c r =>
      if is_digit c then let (d, rest) := span_digits r in (String c d, rest)
      else (EmptyString, s)
  end.

Fixpoint digits_value (acc : N) (d : string) : N :=
  match d with
  | EmptyString => acc
  | String c r => digits_value (10 * acc + (N_of_ascii c - 48))%N r
  end.

(** Case-insensitive match of a lower-case pattern; the rest on success. *)
Fixpoint ci_prefix (pat s : string) : option string :=
  match pat with
  | EmptyString => Some s
  | String p pr =>
      match s with
      | EmptyString => None
      | String c r => if Ascii.eqb (to_lower c) p then ci_prefix pr r else None
      end
  end.

Definition parse_inf_or_nan (s : string) : option pyfloat :=
  let (neg, s1) := take_sign s in
  match ci_prefix "inf" s1 with
  | Some r =>
      let r' := match ci_prefix "inity" r with Some r2 => r2 | None => r end in
      match r' with EmptyString => Some (FInf neg) | _ => None end
  | None =>
      match ci_prefix "nan" s1 with
      | Some EmptyString => Some FNan
      | _ => None
      end
  end.

(** An exponent is consumed only when it has at least one digit. *)
Definition parse_exponent (s : string) : Z * string :=
  match s with
  | EmptyString => (0%Z, s)
  | String c r =>
      if Ascii.eqb c "e" || Ascii.eqb c "E" then
        let (neg, r1) := take_sign r in
        let (d, r2) := span_digits r1 in
        match d with
        | EmptyString => (0%Z, s)
        | _ => let v := Z.of_N (digits_value 0 d) in
               ((if neg then (- v)%Z else v), r2)
        end
      else (0%Z, s)
  end.

(** A literal with no white space around it; the whole text must be used. *)
Definition float_literal (s : string) : option pyfloat :=
  let (neg, s1) := take_sign s in
  let (ip, s2) := span_digits s1 in
  let (fp, s3) := match s2 with
                  | String "." r => span_digits r
                  | _ => (EmptyString, s2)
                  end in
  match (ip ++ fp)%string with
  | EmptyString => parse_inf_or_nan s
  | ds =>
      let (e, s4) := parse_exponent s3 in
      match s4 with
      | EmptyString =>
          Some (FDec neg (digits_value 0 ds) (e - Z.of_nat (String.length fp)))
      | _ => None
      end
  end.

Definition float_value (s : string) : option pyfloat :=
  match drop_underscores "000" s with
  | None => None
  | Some s1 =>
      float_literal (rstrip_by float_isspace (lstrip_by float_isspace s1))
  end.

(** [float(s)]: the value, or [ValueError]. *)
Definition py_float (s : string) : res pyfloat :=
  match float_value s with
  | Some f => Ret f
  | None => Raise ValueError
  end.

(** Magnitudes from [2^1024 - 2^970] on round to an infinite double. *)
Definition double_overflow : Z := (2 ^ 1024 - 2 ^ 970)%Z.

Definition float_is_finite (f : pyfloat) : bool :=
  match f with
  | FNan => false
  | FInf _ => false
  | FDec _ m e =>
      if (0 <=? e)%Z then (Z.of_N m * 10 ^ e <? double_overflow)%Z
      else (Z.of_N m <? double_overflow * 10 ^ (- e))%Z
  end.

(** ** Python values reaching the three helpers *)

Inductive pyobj : Type :=
| PyNone
| PyStr (s : string)
| PyInt (z : Z)
| PyNA.   (* pandas.NA *)

(** [bool(x)], as evaluated by [not x]; [pandas.NA] refuses. *)
Definition py_truth (x : pyobj) : res bool :=
  match x with
  | PyNone => Ret false
  | PyStr s => Ret (negb (String.eqb s EmptyString))
  | PyInt z => Ret (negb (Z.eqb z 0))
  | PyNA => Raise TypeError
  end.

Definition isinstance_str (x : pyobj) : bool :=
  match x with
  | PyStr _ => true
  | _ => false
  end.

(** [x.strip()]: only [str] has the method. *)
Definition py_strip_method (x : pyobj) : res string :=
  match x with
  | PyStr s => Ret (py_strip s)
  | _ => Raise AttributeError
  end.

(** [l[i]] *)
Definition py_index {A} (l : list A) (i : nat) : res A :=
  match nth_error l i with
  | Some a => Ret a
  | None => Raise IndexError
  end.

(** [l[-1]] *)
Definition py_last {A} (l : list A) : res A :=
  match rev l with
  | a :: _ => Ret a
  | [] => Raise IndexError
  end.

(** ** validate_coordinate (lines 37-46) *)

Definition validate_coordinate (coord_str : pyobj) : res bool :=
  res_try
    (s <- py_strip_method coord_str ;;
     let parts := py_split s in
     if negb (List.length parts =? 2)%nat then Ret false
     else
       p0 <- py_index parts 0 ;;
       _ <- py_float p0 ;;
       p1 <- py_index parts 1 ;;
       _ <- py_float p1 ;;
       Ret true)%res
    (fun _ => Ret false).

(** ** prepare_point (lines 85-95) *)

(** The text an f-string inserts for [{x}]. *)
Definition py_format (x : pyobj) : string :=
  match x with
  | PyStr s => s
  | PyNone => "None"
  | PyInt z => NilZero.string_of_int (Z.to_int z)
  | PyNA => "<NA>"
  end.

Definition prepare_point (point_str : pyobj) : res (option string) :=
  (falsy <- (t <- py_truth point_str ;; Ret (negb t)) ;;
   if falsy || negb (isinstance_str point_str) then Ret None
   else
     res_try
       (ok <- validate_coordinate point_str ;;
        if ok then Ret (Some ("POINT(" ++ py_format point_str ++ ")")%string)
        else Ret None)
       (fun _ => Ret None))%res.

(** ** The logger, the records and the run state *)

Inductive log_entry : Type :=
| WarnFewCoords (polygon_str : string)            (* line 68 *)
| WarnFewAfterClosing (polygon_str : string)      (* line 77 *)
| ErrorPolygon (polygon_str : string) (e : exn)   (* line 82 *)
| ErrorRow (e : exn)                              (* line 146 *)
| ErrorBatch (e : exn)                            (* line 168 *)
| InfoProgress (batch succeeded failed : nat)     (* lines 180-185 *)
| CriticalAborted (e : exn)                       (* line 188 *)
| InfoSummary (total success failed : nat).       (* lines 194-203 *)

(** The dictionary built at lines 126-134. *)
Record geo_record : Type := mkRecord {
  rec_id : Z;
  rec_pid : Z;
  rec_deep : Z;
  rec_name : string;
  rec_ext_path : string;
  rec_geo : option string;
  rec_polygon : option string
}.

(** The locals of [import_data] and everything the run writes to. *)
Record run_state : Type := mkState {
  total_rows : nat;
  success_rows : nat;
  failed_rows : nat;
  geo_table : list geo_record;          (* rows committed to the table *)
  sink_calls : list (list geo_record);  (* parameter sets given to execute *)
  bad_polygons_csv : list string;       (* lines appended to the file *)
  logged : list log_entry
}.

Definition init_state : run_state := mkState 0 0 0 [] [] [] [].

Definition add_total (n : nat) (st : run_state) : run_state :=
  mkState (total_rows st + n) (success_rows st) (failed_rows st)
          (geo_table st) (sink_calls st) (bad_polygons_csv st) (logged st).

Definition add_success (n : nat) (st : run_state) : run_state :=
  mkState (total_rows st) (success_rows st + n) (failed_rows st)
          (geo_table st) (sink_calls st) (bad_polygons_csv st) (logged st).

Definition add_failed (n : nat) (st : run_state) : run_state :=
  mkState (total_rows st) (success_rows st) (failed_rows st + n)
          (geo_table st) (sink_calls st) (bad_polygons_csv st) (logged st).

Definition commit_rows (rs : list geo_record) (st : run_state) : run_state :=
  mkState (total_rows st) (success_rows st) (failed_rows st)
          (geo_table st ++ rs) (sink_calls st) (bad_polygons_csv st) (logged st).

Definition record_call (rs : list geo_record) (st : run_state) : run_state :=
  mkState (total_rows st) (success_rows st) (failed_rows st)
          (geo_table st) (sink_calls st ++ [rs]) (bad_polygons_csv st) (logged st).

Definition append_line (l : string) (st : run_state) : run_state :=
  mkState (total_rows st) (success_rows st) (failed_rows st)
          (geo_table st) (sink_calls st) (bad_polygons_csv st ++ [l]) (logged st).

Definition add_log (e : log_entry) (st : run_state) : run_state :=
  mkState (total_rows st) (success_rows st) (failed_rows st)
          (geo_table st) (sink_calls st) (bad_polygons_csv st) (logged st ++ [e]).

(** [l] appended to the log, and [k] rows more counted as failed. *)
Definition bump (k : nat) (l : list log_entry) (st : run_state) : run_state :=
  mkState (total_rows st) (success_rows st) (failed_rows st + k)
          (geo_table st) (sink_calls st) (bad_polygons_csv st) (logged st ++ l).

Definition append_logs (l : list log_entry) (st : run_state) : run_state :=
  mkState (total_rows st) (success_rows st) (failed_rows st)
          (geo_table st) (sink_calls st) (bad_polygons_csv st) (logged st ++ l).

(** ** Computations that change the run state and may raise

    What a computation did to the state before it raised stays done. *)

Definition Run (A : Type) : Type := run_state -> run_state * res A.

Definition run_ret {A} (a : A) : Run A := fun st => (st, Ret a).

Definition run_raise {A} (e : exn) : Run A := fun st => (st, Raise e).

Definition run_bind {A B} (m : Run A) (k : A -> Run B) : Run B :=
  fun st =>
    match m st with
    | (st1, Ret a) => k a st1
    | (st1, Raise e) => (st1, Raise e)
    end.

Definition run_try {A} (m : Run A) (h : exn -> Run A) : Run A :=
  fun st =>
    match m st with
    | (st1, Ret a) => (st1, Ret a)
    | (st1, Raise e) => h e st1
    end.

Definition lift {A} (r : res A) : Run A := fun st => (st, r).

Definition update (f : run_state -> run_state) : Run unit :=
  fun st => (f st, Ret tt).

Definition emit (e : log_entry) : Run unit := update (add_log e).

Declare Scope run_scope.
Delimit Scope run_scope with run.
Notation "x <- m ;; k" := (run_bind m (fun x => k))
  (at level 61, m at next level, right associativity) : run_scope.
Notation "m ;;; k" := (run_bind m (fun _ => k))
  (at level 61, right associativity) : run_scope.

(** ** prepare_polygon (lines 48-83) *)

(** The loop of lines 61-64. *)
Fixpoint collect_coords (tokens coords : list string) : res (list string) :=
  match tokens with
  | [] => Ret coords
  | tok :: rest =>
      let coord := py_strip tok in
      (ok <- validate_coordinate (PyStr coord) ;;
       collect_coords rest (if ok then coords ++ [coord] else coords))%res
  end.

Definition prepare_polygon (polygon_str : pyobj) : Run (option string) :=
  (falsy <- lift (t <- py_truth polygon_str ;; Ret (negb t))%res ;;
   if falsy || negb (isinstance_str polygon_str) then run_ret None
   else
     run_try
       (s <- lift (py_strip_method polygon_str) ;;
        let clean_str :=
          py_remove "]" (py_remove "[" (py_remove ")" (py_remove "(" s))) in
        coords <- lift (collect_coords (py_split_on "," clean_str) []) ;;
        if (List.length coords <? 3)%nat then
          emit (WarnFewCoords (py_format polygon_str)) ;;; run_ret None
        else
          first <- lift (py_index coords 0) ;;
          last <- lift (py_last coords) ;;
          closed <- (if negb (String.eqb first last)
                     then first' <- lift (py_index coords 0) ;;
                          run_ret (coords ++ [first'])
                     else run_ret coords) ;;
          if (List.length closed <? 4)%nat then
            emit (WarnFewAfterClosing (py_format polygon_str)) ;;; run_ret None
          else
            run_ret (Some ("POLYGON((" ++ py_join "," closed ++ "))")%string))
       (fun e => emit (ErrorPolygon (py_format polygon_str) e) ;;; run_ret None))%run.

(** The pipeline of the specification (section 4.2), step by step. *)

Definition is_bracket (c : ascii) : bool :=
  Ascii.eqb c "(" || Ascii.eqb c ")" || Ascii.eqb c "[" || Ascii.eqb c "]".

Fixpoint strip_brackets (s : string) : string :=
  match s with
  | EmptyString => EmptyString
  | String c r => if is_bracket c then strip_brackets r else String c (strip_brackets r)
  end.

Definition passes_validator (t : string) : bool :=
  match validate_coordinate (PyStr t) with
  | Ret true => true
  | _ => false
  end.

Definition close_ring (coords : list string) : list string :=
  match coords with
  | [] => []
  | first :: _ =>
      if String.eqb first (List.last coords first) then coords
      else coords ++ [first]
  end.

Definition polygon_pipeline (s : string) : option string :=
  let tokens := map py_strip (py_split_on "," (strip_brackets s)) in
  let kept := filter passes_validator tokens in
  if (List.length kept <? 3)%nat then None
  else
    let ring := close_ring kept in
    if (List.length ring <? 4)%nat then None
    else Some ("POLYGON((" ++ String.concat "," ring ++ "))")%string.

(** What [prepare_polygon] logs on a string. *)
Definition polygon_warnings (s : string) : list log_entry :=
  if String.eqb s EmptyString then []
  else
    let tokens := map py_strip (py_split_on "," (strip_brackets s)) in
    let kept := filter passes_validator tokens in
    if (List.length kept <? 3)%nat then [WarnFewCoords s]
    else if (List.length (close_ring kept) <? 4)%nat
         then [WarnFewAfterClosing s]
         else [].

(** ** Rows as pandas hands them over *)

(** What the loader needs from a cell of a row: [int(x)], [str(x)] and
    [pd.notna(x)]. *)
Class PandasCell (cell : Type) : Type := {
  py_int : cell -> res Z;
  py_str : cell -> string;
  pd_notna : cell -> bool
}.

(** One entry of [bad_records] (lines 138-142). *)
Record bad_record (cell : Type) : Type := mkBad {
  bad_id : cell;
  bad_reason : string;
  bad_data : cell
}.
Arguments mkBad {cell} _ _ _.
Arguments bad_id {cell} _.
Arguments bad_reason {cell} _.
Arguments bad_data {cell} _.

(** The two lists a window builds (lines 117-118). *)
Record prepared (cell : Type) : Type := mkPrepared {
  values : list geo_record;
  bad_records : list (bad_record cell)
}.
Arguments mkPrepared {cell} _ _.
Arguments values {cell} _.
Arguments bad_records {cell} _.

(** How the outside world answers during one window. *)
Inductive sink_behaviour : Type :=
| SinkCommits
| SinkFaultsOnBegin      (* [engine.begin()] cannot open the transaction *)
| SinkFaultsOnExecute    (* [conn.execute] raises *)
| SinkFaultsOnCommit.    (* the commit on leaving the [with] block raises *)

Record window_env : Type := mkEnv {
  sink : sink_behaviour;
  append_faults : bool;    (* [open('bad_polygons.csv', 'a')] raises *)
  clock_stalled : bool     (* [chunk_time] is zero *)
}.

Definition dquote : string := String (ascii_of_nat 34) EmptyString.
Definition newline : string := String (ascii_of_nat 10) EmptyString.

Definition opt_truth (o : option string) : bool :=
  match o with
  | None => false
  | Some s => negb (String.eqb s EmptyString)
  end.

Section Loader.
Context {cell : Type} {cell_ops : PandasCell cell}.

Definition raw_row : Type := list (string * cell).

(** [row[col]] *)
Definition row_get (row : raw_row) (col : string) : res cell :=
  match find (fun kv => String.eqb (fst kv) col) row with
  | Some kv => Ret (snd kv)
  | None => Raise KeyError
  end.

(** The body of the per-row [try] (lines 123-144): the record appended to
    [values] and what is appended to [bad_records]. *)
Definition prepare_row (row : raw_row)
  : Run (geo_record * list (bad_record cell)) :=
  (geo_c <- lift (row_get row "geo") ;;
   point_wkt <- (if pd_notna geo_c
                 then lift (prepare_point (PyStr (py_str geo_c)))
                 else run_ret None) ;;
   polygon_c <- lift (row_get row "polygon") ;;
   polygon_wkt <- (if pd_notna polygon_c
                   then prepare_polygon (PyStr (py_str polygon_c))
                   else run_ret None) ;;
   id_c <- lift (row_get row "id") ;;
   id <- lift (py_int id_c) ;;
   pid_c <- lift (row_get row "pid") ;;
   pid <- lift (py_int pid_c) ;;
   deep_c <- lift (row_get row "deep") ;;
   deep <- lift (py_int deep_c) ;;
   name_c <- lift (row_get row "name") ;;
   ext_path_c <- lift (row_get row "ext_path") ;;
   let record := mkRecord id pid deep (py_str name_c) (py_str ext_path_c)
                          point_wkt polygon_wkt in
   let bad := if pd_notna polygon_c && negb (opt_truth polygon_wkt)
              then [mkBad id_c "Invalid polygon format" polygon_c]
              else [] in
   run_ret (record, bad))%run.

(** One iteration of the loop of lines 121-147. *)
Definition prepare_step (acc : prepared cell) (row : raw_row)
  : Run (prepared cell) :=
  run_try
    (rb <- prepare_row row ;;
     run_ret (mkPrepared (values acc ++ [fst rb])
                         (bad_records acc ++ snd rb)))%run
    (fun e => emit (ErrorRow e) ;;; update (add_failed 1) ;;; run_ret acc)%run.

Fixpoint prepare_rows (chunk : list raw_row) (acc : prepared cell)
  : Run (prepared cell) :=
  match chunk with
  | [] => run_ret acc
  | row :: rest =>
      (acc' <- prepare_step acc row ;; prepare_rows rest acc')%run
  end.

(** The sink, as [with engine.begin() as conn: ...] sees it. *)
Definition engine_begin (env : window_env) : Run unit :=
  match sink env with
  | SinkFaultsOnBegin => run_raise DBAPIError
  | _ => run_ret tt
  end.

Definition conn_execute (env : window_env) (vs : list geo_record) : Run unit :=
  (update (record_call vs) ;;;
   match sink env with
   | SinkFaultsOnExecute => run_raise DBAPIError
   | _ => run_ret tt
   end)%run.

Definition transaction_commit (env : window_env) (vs : list geo_record)
  : Run unit :=
  match sink env with
  | SinkFaultsOnCommit => run_raise DBAPIError
  | _ => update (commit_rows vs)
  end.

(** [with engine.begin() as conn: body]: the transaction is committed when
    the body is left normally; when the body raises nothing is committed
    and the exception goes on. *)
Definition with_engine_begin (env : window_env) (vs : list geo_record)
    (body : Run unit) : Run unit :=
  (engine_begin env ;;; body ;;; transaction_commit env vs)%run.

(** Lines 150-169. *)
Definition batch_insert (env : window_env) (vs : list geo_record) : Run unit :=
  match vs with
  | [] => run_ret tt
  | _ :: _ =>
      run_try
        (with_engine_begin env vs
           (conn_execute env vs ;;; update (add_success (List.length vs))))%run
        (fun e => emit (ErrorBatch e) ;;;
                  update (add_failed (List.length vs)))%run
  end.

Definition bad_line (b : bad_record cell) : string :=
  (py_str (bad_id b) ++ "," ++ bad_reason b ++ "," ++
   dquote ++ py_str (bad_data b) ++ dquote ++ newline)%string.

Fixpoint write_lines (bs : list (bad_record cell)) : Run unit :=
  match bs with
  | [] => run_ret tt
  | b :: rest => (update (append_line (bad_line b)) ;;; write_lines rest)%run
  end.

(** Lines 172-175. *)
Definition flush_bad_records (env : window_env) (bs : list (bad_record cell))
  : Run unit :=
  match bs with
  | [] => run_ret tt
  | _ :: _ =>
      ((if append_faults env then run_raise OSError else run_ret tt) ;;;
       write_lines bs)%run
  end.

(** Lines 178-185; the division by [chunk_time] is evaluated before the
    line is logged. *)
Definition report_progress (env : window_env) (chunk_idx n_chunk n_values : nat)
  : Run unit :=
  (update (add_total n_chunk) ;;;
   (if clock_stalled env then run_raise ZeroDivisionError else run_ret tt) ;;;
   emit (InfoProgress (chunk_idx + 1) n_values (n_chunk - n_values)))%run.

(** The body of the loop over chunks (lines 116-185). *)
Definition process_window (env : window_env) (chunk_idx : nat)
    (chunk : list raw_row) : Run unit :=
  (p <- prepare_rows chunk (mkPrepared [] []) ;;
   batch_insert env (values p) ;;;
   flush_bad_records env (bad_records p) ;;;
   report_progress env chunk_idx (List.length chunk) (List.length (values p)))%run.

(** What [pd.read_csv(..., chunksize=...)] yields next. *)
Inductive stream_item : Type :=
| Window (env : window_env) (chunk : list raw_row)
| ReadFault.

(** The [for] loop of line 115. *)
Fixpoint run_windows (chunk_idx : nat) (items : list stream_item) : Run unit :=
  match items with
  | [] => run_ret tt
  | ReadFault :: _ => run_raise ParserError
  | Window env chunk :: rest =>
      (process_window env chunk_idx chunk ;;;
       run_windows (chunk_idx + 1) rest)%run
  end.

Definition reset_counters (st : run_state) : run_state :=
  mkState 0 0 0 (geo_table st) (sink_calls st) (bad_polygons_csv st)
          (logged st).

(** Lines 97-203; [run_clock_stalled] says that [total_time] is zero. *)
Definition import_data (items : list stream_item) (run_clock_stalled : bool)
  : Run unit :=
  (update reset_counters ;;;
   run_try (run_windows 0 items) (fun e => emit (CriticalAborted e)) ;;;
   (if run_clock_stalled then run_raise ZeroDivisionError else run_ret tt) ;;;
   fun st => emit (InfoSummary (total_rows st) (success_rows st)
                               (failed_rows st)) st)%run.
(** *** What a window's rows amount to

    The result of the per-row body does not depend on the state it runs
    in; it is read off a run from the initial state. *)

Definition row_result (row : raw_row)
  : res (geo_record * list (bad_record cell)) :=
  snd (prepare_row row init_state).

Definition row_log (row : raw_row) : list log_entry :=
  logged (fst (prepare_row row init_state)).

Definition row_values (row : raw_row) : list geo_record :=
  match row_result row with
  | Ret rb => [fst rb]
  | Raise _ => []
  end.

Definition row_bad (row : raw_row) : list (bad_record cell) :=
  match row_result row with
  | Ret rb => snd rb
  | Raise _ => []
  end.

Definition row_fails (row : raw_row) : bool :=
  match row_result row with
  | Ret _ => false
  | Raise _ => true
  end.

(** [values], [bad_records] and the rows counted failed after the loop of
    lines 121-147. *)
Definition candidates (chunk : list raw_row) : list geo_record :=
  flat_map row_values chunk.

Definition rejections (chunk : list raw_row) : list (bad_record cell) :=
  flat_map row_bad chunk.

Definition failures (chunk : list raw_row) : nat :=
  List.length (filter row_fails chunk).

(** [int()] refuses the id, pid or deep cell of the row. *)
Definition int_coercion_fails (row : raw_row) : Prop :=
  exists col c e,
    In col ["id"; "pid"; "deep"] /\ row_get row col = Ret c
    /\ py_int c = Raise e.

(** The seven columns of a row. *)
Definition has_cells (row : raw_row)
    (id_c pid_c deep_c name_c ext_path_c geo_c polygon_c : cell) : Prop :=
  row_get row "id" = Ret id_c /\ row_get row "pid" = Ret pid_c
  /\ row_get row "deep" = Ret deep_c /\ row_get row "name" = Ret name_c
  /\ row_get row "ext_path" = Ret ext_path_c
  /\ row_get row "geo" = Ret geo_c /\ row_get row "polygon" = Ret polygon_c.

(** Lines 123 and 124 on a cell. *)
Definition point_wkt_of (geo_c : cell) : option string :=
  if pd_notna geo_c then
    if passes_validator (py_str geo_c)
    then Some ("POINT(" ++ py_str geo_c ++ ")")%string
    else None
  else None.

Definition polygon_wkt_of (polygon_c : cell) : option string :=
  if pd_notna polygon_c then polygon_pipeline (py_str polygon_c) else None.
End Loader.

(** ** Cells of a CSV file: missing, integer or text *)

Inductive csv_cell : Type :=
| CellNaN
| CellInt (z : Z)
| CellStr (s : string).

(** [int(s)] on decimal text (the digit-count limit of recent interpreters
    is left out). *)
Definition int_value (s : string) : option Z :=
  match drop_underscores "000" s with
  | None => None
  | Some s1 =>
      let s2 := rstrip_by float_isspace (lstrip_by float_isspace s1) in
      let (neg, s3) := take_sign s2 in
      let (d, rest) := span_digits s3 in
      match d, rest with
      | String _ _, EmptyString =>
          let v := Z.of_N (digits_value 0 d) in
          Some (if neg then (- v)%Z else v)
      | _, _ => None
      end
  end.

#[export] Instance csv_cell_ops : PandasCell csv_cell := {
  py_int c :=
    match c with
    | CellNaN => Raise ValueError
    | CellInt z => Ret z
    | CellStr s => match int_value s with
                   | Some z => Ret z
                   | None => Raise ValueError
                   end
    end;
  py_str c :=
    match c with
    | CellNaN => "nan"
    | CellInt z => NilZero.string_of_int (Z.to_int z)
    | CellStr s => s
    end;
  pd_notna c :=
    match c with
    | CellNaN => false
    | _ => true
    end
}.

Definition csv_row (id pid deep name ext_path geo polygon : csv_cell)
  : list (string * csv_cell) :=
  [("id", id); ("pid", pid); ("deep", deep); ("name", name);
   ("ext_path", ext_path); ("geo", geo); ("polygon", polygon)].

(** Rows and environments used in the examples below. *)
Definition row_shenyang : list (string * csv_cell) :=
  csv_row (CellInt 2101) (CellInt 21) (CellInt 1) (CellStr "Shenyang")
          (CellStr "Liaoning Shenyang") (CellStr "123.42805 41.834777")
          (CellStr "123 41,124 41,124 42,123 41").

Definition row_open_area : list (string * csv_cell) :=
  csv_row (CellInt 2102) (CellInt 21) (CellInt 1) (CellStr "Dalian")
          (CellStr "Liaoning Dalian") (CellStr "121.6 38.9")
          (CellStr "121 38,122 39").

Definition row_text_1 : list (string * csv_cell) :=
  csv_row (CellStr "11") (CellInt 0) (CellInt 0) (CellStr "Beijing")
          (CellStr "Beijing") (CellStr "116.4 39.9") CellNaN.

Definition row_text_bad_id : list (string * csv_cell) :=
  csv_row (CellStr "1x2") (CellInt 0) (CellInt 0) (CellStr "Tianjin")
          (CellStr "Tianjin") (CellStr "117.2 39.1") (CellStr "1 1,2 2").

Definition row_text_3 : list (string * csv_cell) :=
  csv_row (CellStr "13") (CellInt 0) (CellInt 0) (CellStr "Hebei")
          (CellStr "Hebei") CellNaN CellNaN.

Definition env_ok : window_env := mkEnv SinkCommits false false.
Definition env_execute_fault : window_env := mkEnv SinkFaultsOnExecute false false.
Definition env_commit_fault : window_env := mkEnv SinkFaultsOnCommit false false.
Definition env_append_fault : window_env := mkEnv SinkCommits true false.
Definition env_clock_stalled : window_env := mkEnv SinkCommits false true.

(** A stream with a window whose insert faults, one that cannot open the
    rejection file, and one that would have gone well. *)
Definition stream_with_faults : list (@stream_item csv_cell) :=
  [Window env_execute_fault [row_text_1; row_text_bad_id; row_text_3];
   Window env_append_fault [row_open_area];
   Window env_ok [row_shenyang]].

(** A stream whose windows all reach their progress line. *)
Definition stream_reported : list (@stream_item csv_cell) :=
  [Window env_ok [row_shenyang; row_open_area];
   Window env_execute_fault [row_text_1; row_text_bad_id; row_text_3]].

(** ** The specification's wording, for comparison with the source *)

Definition float_accepts (t : string) : bool :=
  match float_value t with
  | Some _ => true
  | None => false
  end.

(** "parses as a finite floating-point number" *)
Definition parses_finite (t : string) : bool :=
  match float_value t with
  | Some f => float_is_finite f
  | None => false
  end.

(** Section 4.1: exactly two white-space separated tokens of the trimmed
    text, both finite numbers. *)
Definition validator_as_specified (t : string) : bool :=
  match py_split (py_strip t) with
  | [a; b] => parses_finite a && parses_finite b
  | _ => false
  end.

(** Section 4.2, normalizePoint: [POINT(<x> <y>)] from the two components of
    the trimmed text. *)
Definition point_as_specified (t : string) : option string :=
  match py_split (py_strip t) with
  | [x; y] =>
      if passes_validator (py_strip t)
      then Some ("POINT(" ++ x ++ " " ++ y ++ ")")%string
      else None
  | _ => None
  end.

Fixpoint all_space (s : string) : bool :=
  match s with
  | EmptyString => true
  | String c r => py_isspace c && all_space r
  end.

Fixpoint no_space (s : string) : bool :=
  match s with
  | EmptyString => true
  | String c r => negb (py_isspace c) && no_space r
  end.

(** [w] appended to the last string of a list. *)
Fixpoint app_last (l : list string) (w : string) : list string :=
  match l with
  | [] => []
  | [t] => [(t ++ w)%string]
  | t :: rest => t :: app_last rest w
  end.

(** ** Notions used to state what a window and a run do *)

(** Lines appended to the rejection file. *)
Definition append_lines (ls : list string) (st : run_state) : run_state :=
  mkState (total_rows st) (success_rows st) (failed_rows st)
          (geo_table st) (sink_calls st) (bad_polygons_csv st ++ ls)
          (logged st).

(** A token with no comma and no bracket in it. *)
Fixpoint plain (t : string) : bool :=
  match t with
  | EmptyString => true
  | String c r => negb (is_bracket c) && negb (Ascii.eqb c ",") && plain r
  end.

Section Runs.
Context {cell : Type} {cell_ops : PandasCell cell}.


(** The commit of the window, if any, does not raise. *)
Definition commit_holds (it : @stream_item cell) : Prop :=
  match it with
  | Window env _ => sink env <> SinkFaultsOnCommit
  | ReadFault => True
  end.

End Runs.

(** * Properties *)

(** ** Strings *)

Lemma space_not_bracket (c : ascii) :
  py_isspace c = true -> is_bracket c = false.
Proof.
  intros Hs. destruct (is_bracket c) eqn:Hb; [|reflexivity].
  unfold is_bracket in Hb.
  repeat (apply orb_true_iff in Hb; destruct Hb as [Hb|Hb]);
    apply Ascii.eqb_eq in Hb; subst c; vm_compute in Hs; discriminate Hs.
Qed.

Lemma space_not_comma (c : ascii) :
  py_isspace c = true -> Ascii.eqb c "," = false.
Proof.
  intros Hs. destruct (Ascii.eqb c ",") eqn:Hc; [|reflexivity].
  apply Ascii.eqb_eq in Hc. subst c. vm_compute in Hs. discriminate Hs.
Qed.

Lemma remove_brackets_eq (s : string) :
  py_remove "]" (py_remove "[" (py_remove ")" (py_remove "(" s)))
  = strip_brackets s.
Proof.
  induction s as [|a r IH]; [reflexivity|].
  simpl. unfold is_bracket.
  destruct (Ascii.eqb a "(") eqn:E1; simpl; [exact IH|].
  destruct (Ascii.eqb a ")") eqn:E2; simpl; [exact IH|].
  destruct (Ascii.eqb a "[") eqn:E3; simpl; [exact IH|].
  destruct (Ascii.eqb a "]") eqn:E4; simpl; [exact IH|].
  now rewrite IH.
Qed.

Lemma strip_brackets_app (a b : string) :
  strip_brackets (a ++ b) = (strip_brackets a ++ strip_brackets b)%string.
Proof.
  induction a as [|c r IH]; simpl; [reflexivity|].
  destruct (is_bracket c); simpl; now rewrite IH.
Qed.

Lemma strip_brackets_space (w : string) :
  all_space w = true -> strip_brackets w = w.
Proof.
  induction w as [|c r IH]; simpl; [reflexivity|].
  intros H. apply andb_true_iff in H. destruct H as [Hc Hr].
  rewrite (space_not_bracket _ Hc). now rewrite IH.
Qed.

Lemma lstrip_decompose (s : string) :
  exists w, all_space w = true /\ s = (w ++ lstrip_by py_isspace s)%string.
Proof.
  induction s as [|c r [w [Hw Hs]]].
  - exists EmptyString. now split.
  - simpl. destruct (py_isspace c) eqn:Hc.
    + exists (String c w). simpl. rewrite Hc, Hw. split; [reflexivity|].
      now rewrite <- Hs.
    + exists EmptyString. now split.
Qed.

Lemma rstrip_all_space (w : string) :
  all_space w = true -> rstrip_by py_isspace w = EmptyString.
Proof.
  induction w as [|c r IH]; simpl; [reflexivity|].
  intros H. apply andb_true_iff in H. destruct H as [Hc Hr].
  now rewrite (IH Hr), Hc.
Qed.

Lemma rstrip_decompose (s : string) :
  exists w, all_space w = true /\ s = (rstrip_by py_isspace s ++ w)%string.
Proof.
  induction s as [|c r [w [Hw Hs]]].
  - exists EmptyString. now split.
  - simpl. destruct (rstrip_by py_isspace r) as [|c' r'] eqn:Hr.
    + destruct (py_isspace c) eqn:Hc.
      * exists (String c w). simpl. rewrite Hc, Hw. split; [reflexivity|].
        simpl in Hs. now rewrite <- Hs.
      * exists w. split; [exact Hw|]. simpl. simpl in Hs. now rewrite <- Hs.
    + exists w. split; [exact Hw|]. simpl. simpl in Hs. now rewrite <- Hs.
Qed.

Lemma rstrip_app_space (x w : string) :
  all_space w = true ->
  rstrip_by py_isspace (x ++ w) = rstrip_by py_isspace x.
Proof.
  intros Hw. induction x as [|c r IH]; simpl.
  - now apply rstrip_all_space.
  - now rewrite IH.
Qed.

Lemma lstrip_app_space (w x : string) :
  all_space w = true ->
  lstrip_by py_isspace (w ++ x) = lstrip_by py_isspace x.
Proof.
  induction w as [|c r IH]; simpl; [reflexivity|].
  intros H. apply andb_true_iff in H. destruct H as [Hc Hr].
  rewrite Hc. now apply IH.
Qed.

Lemma lstrip_all_space (w : string) :
  all_space w = true -> lstrip_by py_isspace w = EmptyString.
Proof.
  induction w as [|c r IH]; simpl; [reflexivity|].
  intros H. apply andb_true_iff in H. destruct H as [Hc Hr].
  rewrite Hc. now apply IH.
Qed.

Lemma lstrip_app_r (x w : string) :
  all_space w = true ->
  lstrip_by py_isspace (x ++ w)
  = if all_space x then EmptyString else (lstrip_by py_isspace x ++ w)%string.
Proof.
  intros Hw. induction x as [|c r IH]; simpl.
  - now apply lstrip_all_space.
  - destruct (py_isspace c); simpl; [exact IH|reflexivity].
Qed.

Lemma strip_app_space_l (w x : string) :
  all_space w = true -> py_strip (w ++ x) = py_strip x.
Proof.
  intros Hw. unfold py_strip. now rewrite lstrip_app_space.
Qed.

Lemma strip_app_space_r (x w : string) :
  all_space w = true -> py_strip (x ++ w) = py_strip x.
Proof.
  intros Hw. unfold py_strip. rewrite (lstrip_app_r _ _ Hw).
  destruct (all_space x) eqn:Hx.
  - now rewrite (lstrip_all_space _ Hx).
  - now apply rstrip_app_space.
Qed.

Lemma split_on_nonempty (c : ascii) (s : string) : py_split_on c s <> [].
Proof.
  destruct s as [|a r]; simpl; [discriminate|].
  destruct (Ascii.eqb a c); [discriminate|].
  destruct (py_split_on c r); discriminate.
Qed.

Lemma split_on_space_prefix (w u : string) :
  all_space w = true ->
  exists t ts, py_split_on "," u = t :: ts
               /\ py_split_on "," (w ++ u) = (w ++ t)%string :: ts.
Proof.
  induction w as [|c r IH]; simpl; intros H.
  - destruct (py_split_on "," u) as [|t ts] eqn:E.
    + now apply split_on_nonempty in E.
    + now exists t, ts.
  - apply andb_true_iff in H. destruct H as [Hc Hr].
    destruct (IH Hr) as [t [ts [E1 E2]]].
    exists t, ts. split; [exact E1|].
    now rewrite (space_not_comma _ Hc), E2.
Qed.

Lemma split_on_all_space (w : string) :
  all_space w = true -> py_split_on "," w = [w].
Proof.
  induction w as [|c r IH]; simpl; [reflexivity|].
  intros H. apply andb_true_iff in H. destruct H as [Hc Hr].
  now rewrite (space_not_comma _ Hc), (IH Hr).
Qed.

Lemma app_last_cons (t : string) (l : list string) (w : string) :
  l <> [] -> app_last (t :: l) w = t :: app_last l w.
Proof. destruct l; [congruence|reflexivity]. Qed.

Lemma split_on_space_suffix (u w : string) :
  all_space w = true ->
  py_split_on "," (u ++ w) = app_last (py_split_on "," u) w.
Proof.
  intros Hw. induction u as [|a r IH]; simpl.
  - now apply split_on_all_space.
  - destruct (Ascii.eqb a ",").
    + rewrite IH. symmetry. apply app_last_cons, split_on_nonempty.
    + rewrite IH. destruct (py_split_on "," r) as [|t ts] eqn:E.
      * now apply split_on_nonempty in E.
      * destruct ts; reflexivity.
Qed.

Lemma map_strip_app_last (l : list string) (w : string) :
  all_space w = true -> map py_strip (app_last l w) = map py_strip l.
Proof.
  intros Hw. induction l as [|t rest IH]; [reflexivity|].
  destruct rest as [|t' rest'].
  - simpl. now rewrite strip_app_space_r.
  - rewrite app_last_cons by discriminate.
    change (py_strip t :: map py_strip (app_last (t' :: rest') w)
            = py_strip t :: map py_strip (t' :: rest')).
    now rewrite IH.
Qed.

(** Trimming the whole text first changes no trimmed token. *)
Lemma tokens_ignore_outer_strip (s : string) :
  map py_strip (py_split_on "," (strip_brackets (py_strip s)))
  = map py_strip (py_split_on "," (strip_brackets s)).
Proof.
  destruct (lstrip_decompose s) as [w1 [Hw1 Hs1]].
  destruct (rstrip_decompose (lstrip_by py_isspace s)) as [w2 [Hw2 Hs2]].
  fold (py_strip s) in Hs2.
  rewrite Hs1 at 2. rewrite Hs2.
  rewrite !strip_brackets_app.
  rewrite (strip_brackets_space _ Hw1), (strip_brackets_space _ Hw2).
  destruct (split_on_space_prefix w1
              (strip_brackets (py_strip s) ++ w2)%string Hw1)
    as [t [ts [E1 E2]]].
  rewrite E2. simpl. rewrite (strip_app_space_l _ _ Hw1).
  change (py_strip t :: map py_strip ts) with (map py_strip (t :: ts)).
  rewrite <- E1, (split_on_space_suffix _ _ Hw2).
  symmetry. now apply map_strip_app_last.
Qed.

(** ** validate_coordinate *)

Lemma res_try_total {A} (m : res A) (d : A) :
  exists a, res_try m (fun _ => Ret d) = Ret a.
Proof. destruct m; simpl; eauto. Qed.

Lemma validate_coordinate_total (v : pyobj) :
  exists b, validate_coordinate v = Ret b.
Proof. unfold validate_coordinate. apply res_try_total. Qed.

Lemma passes_validator_spec (t : string) :
  validate_coordinate (PyStr t) = Ret (passes_validator t).
Proof.
  unfold passes_validator.
  destruct (validate_coordinate_total (PyStr t)) as [b Hb].
  rewrite Hb. now destruct b.
Qed.

Lemma validate_coordinate_unfold (t : string) :
  passes_validator t
  = match py_split (py_strip t) with
    | [a; b] => float_accepts a && float_accepts b
    | _ => false
    end.
Proof.
  unfold passes_validator, validate_coordinate, float_accepts, py_float.
  simpl. destruct (py_split (py_strip t)) as [|a [|b [|c l]]]; simpl;
    try reflexivity.
  destruct (float_value a); simpl; [|reflexivity].
  destruct (float_value b); reflexivity.
Qed.

Lemma split_scan_all_space (w : string) :
  all_space w = true -> split_scan w = (EmptyString, []).
Proof.
  induction w as [|c r IH]; simpl; [reflexivity|].
  intros H. apply andb_true_iff in H. destruct H as [Hc Hr].
  now rewrite (IH Hr), Hc.
Qed.

Lemma split_space_prefix (w s : string) :
  all_space w = true -> py_split (w ++ s) = py_split s.
Proof.
  induction w as [|c r IH]; simpl; [reflexivity|].
  intros H. apply andb_true_iff in H. destruct H as [Hc Hr].
  rewrite <- (IH Hr). unfold py_split. simpl.
  destruct (split_scan (r ++ s)) as [t ts]. now rewrite Hc.
Qed.

Lemma split_scan_space_suffix (x w : string) :
  all_space w = true -> split_scan (x ++ w) = split_scan x.
Proof.
  intros Hw. induction x as [|c r IH]; simpl.
  - now apply split_scan_all_space.
  - now rewrite IH.
Qed.

(** [split()] does not see white space around the text. *)
Lemma split_strip (s : string) : py_split (py_strip s) = py_split s.
Proof.
  destruct (lstrip_decompose s) as [w1 [Hw1 Hs1]].
  destruct (rstrip_decompose (lstrip_by py_isspace s)) as [w2 [Hw2 Hs2]].
  fold (py_strip s) in Hs2.
  rewrite Hs1 at 2. rewrite (split_space_prefix _ _ Hw1), Hs2.
  unfold py_split. now rewrite (split_scan_space_suffix _ _ Hw2).
Qed.

Lemma split_scan_token_prefix (x s : string) :
  no_space x = true ->
  split_scan (x ++ s)
  = ((x ++ fst (split_scan s))%string, snd (split_scan s)).
Proof.
  induction x as [|c r IH]; simpl; intros H.
  - now destruct (split_scan s).
  - apply andb_true_iff in H. destruct H as [Hc Hr].
    rewrite (IH Hr). apply negb_true_iff in Hc. now rewrite Hc.
Qed.

Lemma append_empty_r (x : string) : (x ++ "")%string = x.
Proof. induction x as [|c r IH]; simpl; [reflexivity|now rewrite IH]. Qed.

Lemma append_assoc (x y z : string) :
  ((x ++ y) ++ z)%string = (x ++ (y ++ z))%string.
Proof. induction x as [|c r IH]; simpl; [reflexivity|now rewrite IH]. Qed.

Lemma split_scan_token (y : string) :
  no_space y = true -> split_scan y = (y, []).
Proof.
  intros Hy. rewrite <- (append_empty_r y) at 1.
  rewrite (split_scan_token_prefix y _ Hy). simpl.
  now rewrite append_empty_r.
Qed.

(** Two tokens separated by one space split into themselves. *)
Lemma split_two_tokens (x y : string) :
  no_space x = true -> no_space y = true ->
  x <> EmptyString -> y <> EmptyString ->
  py_split (x ++ " " ++ y) = [x; y].
Proof.
  intros Hx Hy Nx Ny. unfold py_split.
  rewrite (split_scan_token_prefix x _ Hx).
  change (" " ++ y)%string with (String " " y).
  cbn [split_scan]. rewrite (split_scan_token y Hy).
  change (py_isspace " ") with true. cbn [fst snd].
  rewrite append_empty_r.
  destruct x; [congruence|]. destruct y; [congruence|]. reflexivity.
Qed.

Lemma float_accepts_nonempty (x : string) :
  float_accepts x = true -> x <> EmptyString.
Proof. intros H ->. vm_compute in H. discriminate H. Qed.

Lemma parses_finite_accepted (x : string) :
  parses_finite x = true -> float_accepts x = true.
Proof.
  unfold parses_finite, float_accepts.
  destruct (float_value x); [reflexivity|discriminate].
Qed.

(** ** prepare_polygon *)

Lemma collect_coords_filter (tokens acc : list string) :
  collect_coords tokens acc
  = Ret (acc ++ filter passes_validator (map py_strip tokens)).
Proof.
  revert acc. induction tokens as [|t rest IH]; intros acc; simpl.
  - now rewrite app_nil_r.
  - rewrite passes_validator_spec. simpl. rewrite IH.
    destruct (passes_validator (py_strip t)); [|reflexivity].
    now rewrite <- app_assoc.
Qed.

Lemma py_last_spec {A} (l : list A) (d : A) :
  l <> [] -> py_last l = Ret (List.last l d).
Proof.
  intros Hl. unfold py_last. destruct (rev l) as [|a r] eqn:E.
  - apply (f_equal (@rev A)) in E. rewrite rev_involutive in E. now subst.
  - apply (f_equal (@rev A)) in E. rewrite rev_involutive in E. simpl in E.
    subst l. now rewrite last_last.
Qed.

(** ** The run state *)

Lemma state_ext (st st' : run_state) :
  total_rows st = total_rows st' -> success_rows st = success_rows st' ->
  failed_rows st = failed_rows st' -> geo_table st = geo_table st' ->
  sink_calls st = sink_calls st' ->
  bad_polygons_csv st = bad_polygons_csv st' -> logged st = logged st' ->
  st = st'.
Proof. destruct st, st'; simpl; intros; subst; reflexivity. Qed.

Lemma append_logs_nil (st : run_state) : append_logs [] st = st.
Proof. apply state_ext; simpl; auto using app_nil_r. Qed.

Lemma bump_append_logs (k : nat) (l l' : list log_entry) (st : run_state) :
  bump k l' (append_logs l st) = bump k (l ++ l') st.
Proof. apply state_ext; simpl; auto using app_assoc. Qed.

Lemma bump_failed_row (k : nat) (l l' : list log_entry) (e : exn)
    (st : run_state) :
  bump k l' (add_failed 1 (add_log (ErrorRow e) (append_logs l st)))
  = bump (1 + k) (l ++ ErrorRow e :: l') st.
Proof.
  apply state_ext; simpl; auto; [lia|].
  now rewrite <- !app_assoc.
Qed.

Lemma bump_zero (st : run_state) : bump 0 [] st = st.
Proof. apply state_ext; simpl; auto using app_nil_r. Qed.

(** The whole effect of [prepare_polygon] on a string: the value of the
    pipeline, and at most one warning in the log. *)
Lemma prepare_polygon_str (s : string) (st : run_state) :
  prepare_polygon (PyStr s) st
  = (append_logs (polygon_warnings s) st, Ret (polygon_pipeline s)).
Proof.
  unfold prepare_polygon, polygon_warnings.
  cbv [run_bind lift run_try run_ret emit update py_strip_method py_truth
       res_bind isinstance_str py_format].
  destruct (String.eqb s EmptyString) eqn:Hs.
  - apply String.eqb_eq in Hs. subst s. cbn. now rewrite append_logs_nil.
  - cbn [negb orb].
    rewrite remove_brackets_eq, collect_coords_filter,
      tokens_ignore_outer_strip.
    cbn [app]. unfold polygon_pipeline, py_join.
    remember (filter passes_validator
                (map py_strip (py_split_on "," (strip_brackets s)))) as kept.
    destruct (List.length kept <? 3)%nat eqn:Hlen; [reflexivity|].
    destruct kept as [|first rest]; [discriminate Hlen|].
    rewrite (py_last_spec (first :: rest) first) by discriminate.
    cbn [py_index nth_error close_ring].
    destruct (String.eqb first (List.last (first :: rest) first)); cbn [negb].
    + destruct (List.length (first :: rest) <? 4)%nat;
        [reflexivity|now rewrite append_logs_nil].
    + destruct (List.length ((first :: rest) ++ [first]) <? 4)%nat;
        [reflexivity|now rewrite append_logs_nil].
Qed.

(** C1: on every string, [prepare_polygon] returns what the pipeline of the
    specification computes: brackets removed, split on commas, each token
    trimmed, the tokens passing the validator kept in order; absent under
    three tokens; the first token appended when it differs from the last;
    absent under four tokens; otherwise [POLYGON((] the tokens joined by
    commas [))].  The source also trims the whole text first, which changes
    nothing. *)
Theorem prepare_polygon_pipeline (s : string) (st : run_state) :
  snd (prepare_polygon (PyStr s) st) = Ret (polygon_pipeline s).
Proof.
  unfold prepare_polygon.
  cbv [run_bind lift run_try run_ret emit update py_strip_method py_truth
       res_bind isinstance_str].
  destruct (String.eqb s EmptyString) eqn:Hs.
  - apply String.eqb_eq in Hs. subst s. reflexivity.
  - cbn [negb orb].
    rewrite remove_brackets_eq, collect_coords_filter,
      tokens_ignore_outer_strip.
    cbn [app]. unfold polygon_pipeline, py_join.
    remember (filter passes_validator
                (map py_strip (py_split_on "," (strip_brackets s)))) as kept.
    destruct (List.length kept <? 3)%nat eqn:Hlen; [reflexivity|].
    destruct kept as [|first rest]; [discriminate Hlen|].
    rewrite (py_last_spec (first :: rest) first) by discriminate.
    cbn [py_index nth_error close_ring].
    destruct (String.eqb first (List.last (first :: rest) first)); cbn [negb].
    + destruct (List.length (first :: rest) <? 4)%nat; reflexivity.
    + destruct (List.length ((first :: rest) ++ [first]) <? 4)%nat;
        reflexivity.
Qed.

(** The examples of section 8 of the specification. *)
Example polygon_examples :
  polygon_pipeline "(1 1,2 2,3 3)" = Some "POLYGON((1 1,2 2,3 3,1 1))"
  /\ polygon_pipeline "1 1,2 2" = None
  /\ polygon_pipeline "1 1,2 2,3 3,1 1" = Some "POLYGON((1 1,2 2,3 3,1 1))".
Proof. repeat split; vm_compute; reflexivity. Qed.

(** ** validate_coordinate against the specification *)

(** C2, as stated, fails: [nan 1] is accepted although [nan] is no finite
    number; so are [inf] and literals too large for a double. *)
Lemma validator_accepts_non_finite :
  validate_coordinate (PyStr "nan 1") = Ret true
  /\ validator_as_specified "nan 1" = false
  /\ validate_coordinate (PyStr "-inf 1e999") = Ret true
  /\ validator_as_specified "-inf 1e999" = false.
Proof. repeat split; vm_compute; reflexivity. Qed.

(** C2, amended: [validate_coordinate] never raises on a string and returns
    true exactly when the trimmed text splits on white space into two tokens
    that [float()] both accepts; texts the specification accepts are among
    them. *)
Theorem validate_coordinate_accepts (t : string) :
  (validate_coordinate (PyStr t) = Ret true
   \/ validate_coordinate (PyStr t) = Ret false)
  /\ (validate_coordinate (PyStr t) = Ret true <->
      exists a b, py_split (py_strip t) = [a; b]
                  /\ float_accepts a = true /\ float_accepts b = true)
  /\ (validator_as_specified t = true ->
      validate_coordinate (PyStr t) = Ret true).
Proof.
  rewrite passes_validator_spec, validate_coordinate_unfold.
  unfold validator_as_specified.
  destruct (py_split (py_strip t)) as [|a [|b [|c l]]].
  1, 2, 4: (split; [now right|]; split; [split|]; try discriminate;
            intros [a' [b' [E _]]]; discriminate E).
  split; [destruct (float_accepts a && float_accepts b); auto|].
  split; [split|].
  - intros E. injection E as E. apply andb_true_iff in E.
    exists a, b. now split.
  - intros [a' [b' [E [Ha Hb]]]]. injection E as -> ->. now rewrite Ha, Hb.
  - intros E. apply andb_true_iff in E. destruct E as [Ha Hb].
    now rewrite (parses_finite_accepted _ Ha), (parses_finite_accepted _ Hb).
Qed.

Example validator_examples :
  validate_coordinate (PyStr "123.4 41.8") = Ret true
  /\ validate_coordinate (PyStr "123.4") = Ret false
  /\ validate_coordinate (PyStr "abc 1") = Ret false
  /\ validate_coordinate (PyStr "") = Ret false
  /\ validate_coordinate (PyStr "1 2 3") = Ret false.
Proof. repeat split; vm_compute; reflexivity. Qed.

(** ** prepare_point *)

Lemma prepare_point_str (t : string) :
  prepare_point (PyStr t)
  = Ret (if passes_validator t then Some ("POINT(" ++ t ++ ")")%string
         else None).
Proof.
  unfold prepare_point. cbn [py_truth res_bind isinstance_str py_format].
  destruct (String.eqb t EmptyString) eqn:Ht.
  - apply String.eqb_eq in Ht. subst t. reflexivity.
  - cbn [negb orb]. rewrite passes_validator_spec. cbn [res_bind res_try].
    now destruct (passes_validator t).
Qed.

(** C6, as stated, fails: the text is inserted as it came, so a second
    space between the components, or spaces around them, stay in the
    result. *)
Lemma point_keeps_whitespace :
  prepare_point (PyStr "1  2") = Ret (Some "POINT(1  2)")
  /\ point_as_specified "1  2" = Some "POINT(1 2)"
  /\ prepare_point (PyStr " 1 2 ") = Ret (Some "POINT( 1 2 )")
  /\ point_as_specified " 1 2 " = Some "POINT(1 2)".
Proof. repeat split; vm_compute; reflexivity. Qed.

(** C6, amended: [prepare_point] returns absent on [None], on the empty
    string and on a string failing the validator; on a string passing it,
    [POINT(] the string exactly as given [)]; when the string is the two
    components separated by one space this is [POINT(<x> <y>)], as
    specified. *)
Theorem prepare_point_verbatim (t : string) :
  prepare_point PyNone = Ret None
  /\ prepare_point (PyStr "") = Ret None
  /\ prepare_point (PyStr t)
     = Ret (if passes_validator t then Some ("POINT(" ++ t ++ ")")%string
            else None)
  /\ (forall x y,
        t = (x ++ " " ++ y)%string ->
        no_space x = true -> no_space y = true ->
        float_accepts x = true -> float_accepts y = true ->
        prepare_point (PyStr t)
        = Ret (Some ("POINT(" ++ x ++ " " ++ y ++ ")")%string)
        /\ point_as_specified t
           = Some ("POINT(" ++ x ++ " " ++ y ++ ")")%string).
Proof.
  split; [reflexivity|]. split; [reflexivity|].
  split; [apply prepare_point_str|].
  intros x y -> Hx Hy Fx Fy.
  assert (Hsplit : py_split (x ++ " " ++ y) = [x; y])
    by (apply split_two_tokens; auto using float_accepts_nonempty).
  assert (Hok : passes_validator (x ++ " " ++ y) = true)
    by (rewrite validate_coordinate_unfold, split_strip, Hsplit;
        now rewrite Fx, Fy).
  split.
  - rewrite prepare_point_str, Hok. now rewrite !append_assoc.
  - unfold point_as_specified.
    rewrite validate_coordinate_unfold, !split_strip, Hsplit.
    now rewrite Fx, Fy.
Qed.

Example point_examples :
  prepare_point (PyStr "123.42805 41.834777")
  = Ret (Some "POINT(123.42805 41.834777)")
  /\ prepare_point (PyStr "123.42805") = Ret None.
Proof. split; vm_compute; reflexivity. Qed.

(** ** The three helpers never raise, the entry guard apart *)

(** C8, as stated, fails: the guard [not x] of [prepare_point] and
    [prepare_polygon] stands before the [try], and the truth test of
    [pandas.NA] raises. *)
Lemma guard_raises_on_NA :
  prepare_point PyNA = Raise TypeError
  /\ snd (prepare_polygon PyNA init_state) = Raise TypeError
  /\ validate_coordinate PyNA = Ret false.
Proof. repeat split. Qed.

Lemma prepare_point_returns (v : pyobj) (b : bool) :
  py_truth v = Ret b -> exists r, prepare_point v = Ret r.
Proof.
  destruct v as [| s | z |]; intros Hb.
  - now exists None.
  - rewrite prepare_point_str. eauto.
  - unfold prepare_point. cbn [py_truth res_bind isinstance_str].
    destruct (Z.eqb z 0); now exists None.
  - discriminate Hb.
Qed.

Lemma prepare_polygon_returns (v : pyobj) (b : bool) (st : run_state) :
  py_truth v = Ret b -> exists r, snd (prepare_polygon v st) = Ret r.
Proof.
  destruct v as [| s | z |]; intros Hb.
  - now exists None.
  - rewrite prepare_polygon_str. cbn [snd]. eauto.
  - unfold prepare_polygon.
    cbv [run_bind lift run_ret py_truth res_bind isinstance_str].
    destruct (Z.eqb z 0); now exists None.
  - discriminate Hb.
Qed.

(** C8, amended: [validate_coordinate] returns a boolean for every value;
    [prepare_point] and [prepare_polygon] return a string or absent for
    every value whose truth test returns (every string, [None], every
    integer). *)
Theorem helpers_total (v : pyobj) (st : run_state) :
  (exists b, validate_coordinate v = Ret b)
  /\ (forall t, py_truth v = Ret t ->
        (exists r, prepare_point v = Ret r)
        /\ (exists r, snd (prepare_polygon v st) = Ret r)).
Proof.
  split; [apply validate_coordinate_total|].
  intros t Ht. split.
  - exact (prepare_point_returns v t Ht).
  - exact (prepare_polygon_returns v t st Ht).
Qed.

(** ** The loader *)

Section LoaderProperties.
Context {cell : Type} {cell_ops : PandasCell cell}.

Ltac row_step :=
  match goal with
  | |- context [match row_get ?r ?c with _ => _ end] =>
      destruct (row_get r c)
  | |- context [if pd_notna ?c then _ else _] => destruct (pd_notna c)
  | |- context [prepare_polygon (PyStr ?s) ?st] =>
      rewrite (prepare_polygon_str s st)
  | |- context [match prepare_point ?v with _ => _ end] =>
      destruct (prepare_point v)
  | |- context [match py_int ?c with _ => _ end] => destruct (py_int c)
  end; cbv beta iota.

(** The per-row body only appends to the log, and its result does not
    depend on the state. *)
Lemma prepare_row_frame (row : raw_row) (st : run_state) :
  prepare_row row st = (append_logs (row_log row) st, row_result row).
Proof.
  unfold row_log, row_result, prepare_row.
  cbv [run_bind lift run_ret]. cbv beta iota.
  repeat row_step.
  all: cbn [fst snd logged append_logs init_state app].
  all: rewrite ?append_logs_nil; reflexivity.
Qed.

Lemma prepare_step_spec (acc : prepared cell) (row : raw_row)
    (st : run_state) :
  prepare_step acc row st
  = match row_result row with
    | Ret rb =>
        (append_logs (row_log row) st,
         Ret (mkPrepared (values acc ++ [fst rb]) (bad_records acc ++ snd rb)))
    | Raise e =>
        (add_failed 1 (add_log (ErrorRow e) (append_logs (row_log row) st)),
         Ret acc)
    end.
Proof.
  unfold prepare_step, run_try, run_bind. rewrite prepare_row_frame.
  destruct (row_result row); reflexivity.
Qed.

(** The loop of lines 121-147 computes [candidates], [rejections] and
    [failures]. *)
Lemma prepare_rows_summary (chunk : list raw_row) (acc : prepared cell)
    (st : run_state) :
  exists l,
    prepare_rows chunk acc st
    = (bump (failures chunk) l st,
       Ret (mkPrepared (values acc ++ candidates chunk)
                       (bad_records acc ++ rejections chunk))).
Proof.
  revert acc st. induction chunk as [|row rest IH]; intros acc st.
  - exists []. cbn. rewrite !app_nil_r, bump_zero. now destruct acc.
  - cbn [prepare_rows]. unfold run_bind. rewrite prepare_step_spec.
    unfold candidates, rejections, failures, row_values, row_bad, row_fails.
    cbn [flat_map filter].
    destruct (row_result row) as [rb|e].
    + destruct (IH (mkPrepared (values acc ++ [fst rb])
                               (bad_records acc ++ snd rb))
                   (append_logs (row_log row) st)) as [l Hl].
      exists (row_log row ++ l). rewrite Hl, bump_append_logs.
      cbn [values bad_records]. now rewrite <- !app_assoc.
    + destruct (IH acc
                   (add_failed 1
                      (add_log (ErrorRow e) (append_logs (row_log row) st))))
        as [l Hl].
      exists (row_log row ++ ErrorRow e :: l).
      now rewrite Hl, bump_failed_row.
Qed.

(** Every row is a candidate or a failure, never both. *)
Lemma candidates_plus_failures (chunk : list raw_row) :
  List.length (candidates chunk) + failures chunk = List.length chunk.
Proof.
  unfold candidates, failures.
  induction chunk as [|row rest IH]; [reflexivity|].
  cbn [flat_map filter]. unfold row_values at 1, row_fails at 1.
  destruct (row_result row); cbn [app List.length]; lia.
Qed.

Lemma candidates_app (a b : list raw_row) :
  candidates (a ++ b) = candidates a ++ candidates b.
Proof. unfold candidates. now rewrite flat_map_app. Qed.

Lemma rejections_app (a b : list raw_row) :
  rejections (a ++ b) = rejections a ++ rejections b.
Proof. unfold rejections. now rewrite flat_map_app. Qed.

Lemma failures_app (a b : list raw_row) :
  failures (a ++ b) = failures a + failures b.
Proof. unfold failures. now rewrite filter_app, length_app. Qed.

(** A row whose id, pid or deep is refused by [int()] raises. *)
Lemma coercion_failure_raises (row : raw_row) :
  int_coercion_fails row -> exists e, row_result row = Raise e.
Proof.
  intros [col [c [e [Hcol [Hget Hint]]]]].
  unfold row_result, prepare_row.
  cbv [run_bind lift run_ret]. cbv beta iota.
  destruct Hcol as [<-|[<-|[<-|[]]]]; rewrite ?Hget.
  all: repeat first
         [ rewrite Hget; cbv beta iota
         | rewrite Hint; cbv beta iota
         | row_step ].
  all: cbn [snd]; eauto.
Qed.

(** C4: a row whose id, pid or deep is refused by [int()] adds no record
    and no rejected-geometry entry and is counted failed once: the window
    has the candidates and rejections it has without the row, and one
    failure more.  With one such row between two rows that prepare, the
    window has two candidates and one failure. *)
Theorem coercion_failure_drops_row (pre post : list raw_row) (row : raw_row) :
  int_coercion_fails row ->
  (forall acc st, exists st',
      prepare_step acc row st = (st', Ret acc)
      /\ failed_rows st' = failed_rows st + 1)
  /\ candidates (pre ++ row :: post) = candidates (pre ++ post)
  /\ rejections (pre ++ row :: post) = rejections (pre ++ post)
  /\ failures (pre ++ row :: post) = failures (pre ++ post) + 1
  /\ (forall acc st, exists l,
        prepare_rows (pre ++ row :: post) acc st
        = (bump (failures (pre ++ post) + 1) l st,
           Ret (mkPrepared (values acc ++ candidates (pre ++ post))
                           (bad_records acc ++ rejections (pre ++ post)))))
  /\ (forall r1 r3 rb1 rb3,
        row_result r1 = Ret rb1 -> row_result r3 = Ret rb3 ->
        candidates [r1; row; r3] = [fst rb1; fst rb3]
        /\ failures [r1; row; r3] = 1
        /\ rejections [r1; row; r3] = snd rb1 ++ snd rb3).
Proof.
  intros Hfail. destruct (coercion_failure_raises row Hfail) as [e He].
  assert (Hv : row_values row = []) by (unfold row_values; now rewrite He).
  assert (Hb : row_bad row = []) by (unfold row_bad; now rewrite He).
  assert (Hf : row_fails row = true) by (unfold row_fails; now rewrite He).
  assert (Hc : candidates (pre ++ row :: post) = candidates (pre ++ post)).
  { rewrite !candidates_app. unfold candidates at 2. cbn [flat_map].
    now rewrite Hv. }
  assert (Hr : rejections (pre ++ row :: post) = rejections (pre ++ post)).
  { rewrite !rejections_app. unfold rejections at 2. cbn [flat_map].
    now rewrite Hb. }
  assert (Hn : failures (pre ++ row :: post) = failures (pre ++ post) + 1).
  { rewrite !failures_app. unfold failures at 2. cbn [filter].
    rewrite Hf. cbn [List.length]. fold (failures post). lia. }
  split; [|split; [exact Hc|split; [exact Hr|split; [exact Hn|split]]]].
  - intros acc st. rewrite prepare_step_spec, He.
    eexists. split; [reflexivity|]. reflexivity.
  - intros acc st.
    destruct (prepare_rows_summary (pre ++ row :: post) acc st) as [l Hl].
    exists l. now rewrite Hl, Hc, Hr, Hn.
  - intros r1 r3 rb1 rb3 H1 H3.
    unfold candidates, failures, rejections, row_values, row_fails, row_bad.
    cbn [flat_map filter]. rewrite H1, H3, He. cbn.
    now rewrite app_nil_r.
Qed.

Lemma polygon_pipeline_truthy (s w : string) :
  polygon_pipeline s = Some w -> opt_truth (Some w) = true.
Proof.
  unfold polygon_pipeline.
  destruct (_ <? 3)%nat; [discriminate|].
  destruct (_ <? 4)%nat; [discriminate|].
  intros E. injection E as <-. reflexivity.
Qed.

(** The record and the entry a row yields once its scalars coerce. *)
Lemma prepare_row_record (row : raw_row)
    (id_c pid_c deep_c name_c ext_path_c geo_c polygon_c : cell)
    (id pid deep : Z) :
  has_cells row id_c pid_c deep_c name_c ext_path_c geo_c polygon_c ->
  py_int id_c = Ret id -> py_int pid_c = Ret pid -> py_int deep_c = Ret deep ->
  row_result row
  = Ret (mkRecord id pid deep (py_str name_c) (py_str ext_path_c)
                  (point_wkt_of geo_c) (polygon_wkt_of polygon_c),
         if pd_notna polygon_c && negb (opt_truth (polygon_wkt_of polygon_c))
         then [mkBad id_c "Invalid polygon format" polygon_c]
         else []).
Proof.
  intros (Hid & Hpid & Hdeep & Hname & Hext & Hgeo & Hpol) Iid Ipid Ideep.
  unfold row_result, prepare_row, point_wkt_of, polygon_wkt_of.
  cbv [run_bind lift run_ret]. cbv beta iota.
  rewrite Hgeo, Hpol, Hid, Hpid, Hdeep, Hname, Hext, Iid, Ipid, Ideep.
  cbv beta iota.
  destruct (pd_notna geo_c); cbv beta iota;
    [rewrite prepare_point_str|]; cbv beta iota;
    (destruct (pd_notna polygon_c); cbv beta iota;
     [rewrite prepare_polygon_str|]; reflexivity).
Qed.

(** C5: a row whose scalars coerce and whose polygon is present but does
    not normalise is kept as a candidate with no polygon and one
    rejected-geometry entry (id, reason, raw text), and is not counted
    failed; a present point that fails validation becomes absent and, the
    polygon being absent or fine, gives no entry. *)
Theorem bad_polygon_keeps_row (row : raw_row)
    (id_c pid_c deep_c name_c ext_path_c geo_c polygon_c : cell)
    (id pid deep : Z) :
  has_cells row id_c pid_c deep_c name_c ext_path_c geo_c polygon_c ->
  py_int id_c = Ret id -> py_int pid_c = Ret pid -> py_int deep_c = Ret deep ->
  (pd_notna polygon_c = true ->
   polygon_pipeline (py_str polygon_c) = None ->
   row_values row
   = [mkRecord id pid deep (py_str name_c) (py_str ext_path_c)
               (point_wkt_of geo_c) None]
   /\ row_bad row = [mkBad id_c "Invalid polygon format" polygon_c]
   /\ row_fails row = false
   /\ (forall acc st, exists st',
         prepare_step acc row st
         = (st', Ret (mkPrepared
                        (values acc
                         ++ [mkRecord id pid deep (py_str name_c)
                                      (py_str ext_path_c)
                                      (point_wkt_of geo_c) None])
                        (bad_records acc
                         ++ [mkBad id_c "Invalid polygon format" polygon_c])))
         /\ failed_rows st' = failed_rows st)
   /\ (forall chunk, In row chunk ->
         In (mkRecord id pid deep (py_str name_c) (py_str ext_path_c)
                      (point_wkt_of geo_c) None) (candidates chunk)
         /\ In (mkBad id_c "Invalid polygon format" polygon_c)
                (rejections chunk)))
  /\ (pd_notna geo_c = true ->
      passes_validator (py_str geo_c) = false ->
      (pd_notna polygon_c = false
       \/ exists w, polygon_pipeline (py_str polygon_c) = Some w) ->
      row_values row
      = [mkRecord id pid deep (py_str name_c) (py_str ext_path_c)
                  None (polygon_wkt_of polygon_c)]
      /\ row_bad row = []).
Proof.
  intros Hcells Iid Ipid Ideep.
  pose proof (prepare_row_record row _ _ _ _ _ _ _ _ _ _
                Hcells Iid Ipid Ideep) as Hrow.
  split.
  - intros Hna Hnone.
    assert (Hp : polygon_wkt_of polygon_c = None)
      by (unfold polygon_wkt_of; now rewrite Hna).
    rewrite Hp, Hna in Hrow. cbn [opt_truth negb andb] in Hrow.
    unfold row_values, row_bad, row_fails. rewrite Hrow. cbn [fst snd].
    split; [reflexivity|]. split; [reflexivity|]. split; [reflexivity|].
    split.
    + intros acc st. rewrite prepare_step_spec, Hrow. cbn [fst snd].
      eexists. split; reflexivity.
    + intros chunk Hin. unfold candidates, rejections.
      split; apply in_flat_map; exists row; (split; [exact Hin|]);
        unfold row_values, row_bad; rewrite Hrow; now left.
  - intros Hna Hbad Hpol.
    assert (Hg : point_wkt_of geo_c = None)
      by (unfold point_wkt_of; now rewrite Hna, Hbad).
    rewrite Hg in Hrow.
    assert (Hb : pd_notna polygon_c
                 && negb (opt_truth (polygon_wkt_of polygon_c)) = false).
    { destruct Hpol as [Hp|[w Hw]]; [now rewrite Hp|].
      unfold polygon_wkt_of. destruct (pd_notna polygon_c); [|reflexivity].
      now rewrite Hw, (polygon_pipeline_truthy _ _ Hw). }
    rewrite Hb in Hrow.
    unfold row_values, row_bad. now rewrite Hrow.
Qed.

(** *** The batch insert, the rejection file and the progress line *)

(** What lines 150-169 do to the state, by what the sink does.  When the
    commit raises, [success_rows] has already been increased. *)
Lemma batch_insert_effect (env : window_env) (vs : list geo_record)
    (st : run_state) :
  exists st2,
    batch_insert env vs st = (st2, Ret tt)
    /\ total_rows st2 = total_rows st
    /\ bad_polygons_csv st2 = bad_polygons_csv st
    /\ (exists l, logged st2 = logged st ++ l)
    /\ match vs, sink env with
       | [], _ =>
           success_rows st2 = success_rows st
           /\ failed_rows st2 = failed_rows st
           /\ geo_table st2 = geo_table st /\ sink_calls st2 = sink_calls st
       | _ :: _, SinkCommits =>
           success_rows st2 = success_rows st + List.length vs
           /\ failed_rows st2 = failed_rows st
           /\ geo_table st2 = geo_table st ++ vs
           /\ sink_calls st2 = sink_calls st ++ [vs]
       | _ :: _, SinkFaultsOnBegin =>
           success_rows st2 = success_rows st
           /\ failed_rows st2 = failed_rows st + List.length vs
           /\ geo_table st2 = geo_table st /\ sink_calls st2 = sink_calls st
       | _ :: _, SinkFaultsOnExecute =>
           success_rows st2 = success_rows st
           /\ failed_rows st2 = failed_rows st + List.length vs
           /\ geo_table st2 = geo_table st
           /\ sink_calls st2 = sink_calls st ++ [vs]
       | _ :: _, SinkFaultsOnCommit =>
           success_rows st2 = success_rows st + List.length vs
           /\ failed_rows st2 = failed_rows st + List.length vs
           /\ geo_table st2 = geo_table st
           /\ sink_calls st2 = sink_calls st ++ [vs]
       end.
Proof.
  destruct vs as [|v vs'].
  - exists st. repeat split. exists []. now rewrite app_nil_r.
  - destruct env as [[] af cs];
      (eexists; split; [reflexivity|]);
      cbn; repeat split;
      first [ exists []; now rewrite app_nil_r | eexists; reflexivity ].
Qed.

Lemma write_lines_effect (bs : list (bad_record cell)) (st : run_state) :
  exists st3,
    write_lines bs st = (st3, Ret tt)
    /\ total_rows st3 = total_rows st /\ success_rows st3 = success_rows st
    /\ failed_rows st3 = failed_rows st /\ geo_table st3 = geo_table st
    /\ sink_calls st3 = sink_calls st /\ logged st3 = logged st
    /\ bad_polygons_csv st3 = bad_polygons_csv st ++ map bad_line bs.
Proof.
  revert st. induction bs as [|b rest IH]; intros st.
  - exists st. repeat split. cbn. now rewrite app_nil_r.
  - cbn [write_lines]. unfold run_bind, update.
    destruct (IH (append_line (bad_line b) st))
      as (st3 & E & Ht & Hs & Hf & Hg & Hc & Hl & Hb).
    exists st3. rewrite E. repeat split; try assumption.
    rewrite Hb. cbn. now rewrite <- app_assoc.
Qed.

(** Lines 172-175: nothing to write, a fault at [open], or the lines
    appended. *)
Lemma flush_bad_records_effect (env : window_env)
    (bs : list (bad_record cell)) (st : run_state) :
  match bs, append_faults env with
  | [], _ => flush_bad_records env bs st = (st, Ret tt)
  | _ :: _, true => flush_bad_records env bs st = (st, Raise OSError)
  | _ :: _, false =>
      exists st3,
        flush_bad_records env bs st = (st3, Ret tt)
        /\ total_rows st3 = total_rows st
        /\ success_rows st3 = success_rows st
        /\ failed_rows st3 = failed_rows st /\ geo_table st3 = geo_table st
        /\ sink_calls st3 = sink_calls st /\ logged st3 = logged st
        /\ bad_polygons_csv st3 = bad_polygons_csv st ++ map bad_line bs
  end.
Proof.
  destruct bs as [|b rest]; [reflexivity|].
  unfold flush_bad_records. destruct (append_faults env); [reflexivity|].
  unfold run_bind, run_ret. apply write_lines_effect.
Qed.

(** A window reaches its progress line when the rejection file can be
    opened, or need not be, and the clock moved. *)
Lemma process_window_reports (env : window_env) (chunk_idx : nat)
    (chunk : list raw_row) (st : run_state) :
  rejections chunk = [] \/ append_faults env = false ->
  clock_stalled env = false ->
  exists l st2 st3,
    batch_insert env (candidates chunk) (bump (failures chunk) l st)
    = (st2, Ret tt)
    /\ total_rows st3 = total_rows st2 /\ success_rows st3 = success_rows st2
    /\ failed_rows st3 = failed_rows st2 /\ geo_table st3 = geo_table st2
    /\ sink_calls st3 = sink_calls st2 /\ logged st3 = logged st2
    /\ process_window env chunk_idx chunk st
       = (add_log (InfoProgress (chunk_idx + 1)
                     (List.length (candidates chunk))
                     (List.length chunk - List.length (candidates chunk)))
            (add_total (List.length chunk) st3),
          Ret tt).
Proof.
  intros Hflush Hclock.
  destruct (prepare_rows_summary chunk (mkPrepared [] []) st) as [l Hl].
  cbn [values bad_records app] in Hl.
  destruct (batch_insert_effect env (candidates chunk)
              (bump (failures chunk) l st)) as (st2 & Hb & _).
  pose proof (flush_bad_records_effect env (rejections chunk) st2) as Hf.
  assert (Hst3 : exists st3,
             flush_bad_records env (rejections chunk) st2 = (st3, Ret tt)
             /\ total_rows st3 = total_rows st2
             /\ success_rows st3 = success_rows st2
             /\ failed_rows st3 = failed_rows st2
             /\ geo_table st3 = geo_table st2
             /\ sink_calls st3 = sink_calls st2 /\ logged st3 = logged st2).
  { destruct (rejections chunk) as [|b bs].
    - exists st2. now repeat split.
    - destruct Hflush as [Hnil|Hok]; [discriminate Hnil|].
      rewrite Hok in Hf.
      destruct Hf as (st3 & E & Ht & Hs & Hfl & Hg & Hc & Hlog & _).
      exists st3. repeat split; assumption. }
  destruct Hst3 as (st3 & Ef & Ht & Hs & Hfl & Hg & Hc & Hlog).
  exists l, st2, st3. repeat split; try assumption.
  unfold process_window, run_bind. rewrite Hl. cbn [values bad_records].
  rewrite Hb, Ef. unfold report_progress, run_bind, update, emit, update.
  now rewrite Hclock.
Qed.

(** C10: the progress line of a window gives the number of prepared
    candidates as succeeded and the rows of the window less that number as
    failed, whatever the sink did; when the insert of a non-empty candidate
    set faulted, the accumulators count every row of the window failed all
    the same. *)
Theorem progress_line_ignores_sink (env : window_env) (chunk_idx : nat)
    (chunk : list raw_row) (st : run_state) :
  rejections chunk = [] \/ append_faults env = false ->
  clock_stalled env = false ->
  exists st1 p st',
    prepare_rows chunk (mkPrepared [] []) st = (st1, Ret p)
    /\ process_window env chunk_idx chunk st = (st', Ret tt)
    /\ (exists l,
          logged st'
          = logged st ++ l
            ++ [InfoProgress (chunk_idx + 1) (List.length (values p))
                  (List.length chunk - List.length (values p))])
    /\ List.length (values p) <= List.length chunk
    /\ (values p <> [] -> sink env <> SinkCommits ->
        failed_rows st' = failed_rows st + List.length chunk).
Proof.
  intros Hflush Hclock.
  destruct (prepare_rows_summary chunk (mkPrepared [] []) st) as [l0 Hl0].
  cbn [values bad_records app] in Hl0.
  destruct (process_window_reports env chunk_idx chunk st Hflush Hclock)
    as (l & st2 & st3 & Hb & Ht & Hs & Hf & Hg & Hc & Hlog & Hw).
  destruct (batch_insert_effect env (candidates chunk)
              (bump (failures chunk) l st))
    as (st2' & Hb' & _ & _ & [l2 Hl2] & Hcase).
  rewrite Hb in Hb'. injection Hb' as <-.
  pose proof (candidates_plus_failures chunk) as Hcount.
  eexists _, _, _. split; [exact Hl0|]. split; [exact Hw|].
  cbn [values]. split; [|split].
  - exists (l ++ l2). cbn [logged add_log add_total].
    rewrite Hlog, Hl2. cbn [logged bump]. now rewrite <- !app_assoc.
  - lia.
  - intros Hne Hsink. cbn [failed_rows add_log add_total]. rewrite Hf.
    destruct (candidates chunk) as [|v vs] eqn:Ec; [congruence|].
    destruct (sink env); [congruence| | |];
      destruct Hcase as (_ & Hfail & _); rewrite Hfail;
      cbn [failed_rows bump]; lia.
Qed.

(** C7, amended: when the rejection file cannot be opened the exception
    leaves the loop: what the batch insert did stays as it is, nothing is
    appended, the rows of the window are not added to [total_rows], the
    failure is logged as critical, and the windows that follow are not
    processed. *)
Theorem append_fault_ends_run (env : window_env) (chunk_idx : nat)
    (chunk : list raw_row) (rest : list stream_item) (st : run_state) :
  rejections chunk <> [] ->
  append_faults env = true ->
  exists st1 p st2,
    prepare_rows chunk (mkPrepared [] []) st = (st1, Ret p)
    /\ batch_insert env (values p) st1 = (st2, Ret tt)
    /\ process_window env chunk_idx chunk st = (st2, Raise OSError)
    /\ run_try (run_windows chunk_idx (Window env chunk :: rest))
               (fun e => emit (CriticalAborted e)) st
       = (add_log (CriticalAborted OSError) st2, Ret tt)
    /\ total_rows st2 = total_rows st
    /\ bad_polygons_csv st2 = bad_polygons_csv st.
Proof.
  intros Hbad Hfault.
  destruct (prepare_rows_summary chunk (mkPrepared [] []) st) as [l Hl].
  cbn [values bad_records app] in Hl.
  destruct (batch_insert_effect env (candidates chunk)
              (bump (failures chunk) l st))
    as (st2 & Hb & Ht & Hcsv & _).
  pose proof (flush_bad_records_effect env (rejections chunk) st2) as Hf.
  destruct (rejections chunk) as [|b bs] eqn:Er; [congruence|].
  rewrite Hfault in Hf.
  assert (Hw : process_window env chunk_idx chunk st = (st2, Raise OSError)).
  { unfold process_window, run_bind. rewrite Hl. cbn [values bad_records].
    now rewrite Hb, Hf. }
  eexists _, _, st2. split; [exact Hl|]. cbn [values].
  split; [exact Hb|]. split; [exact Hw|]. split; [|split].
  - unfold run_try. cbn [run_windows]. unfold run_bind. now rewrite Hw.
  - exact Ht.
  - exact Hcsv.
Qed.

(** X1: the counters after a window whose insert faulted before the commit:
    [success_rows] as before, every row of the window counted failed,
    nothing committed, at most one call of [execute], and the loop goes on
    with the next window. *)
Lemma fault_before_commit (env : window_env) (chunk_idx : nat)
    (chunk : list raw_row) (rest : list stream_item) (st : run_state) :
  sink env = SinkFaultsOnBegin \/ sink env = SinkFaultsOnExecute ->
  candidates chunk <> [] ->
  rejections chunk = [] \/ append_faults env = false ->
  clock_stalled env = false ->
  exists st',
    process_window env chunk_idx chunk st = (st', Ret tt)
    /\ success_rows st' = success_rows st
    /\ failed_rows st'
       = failed_rows st + failures chunk + List.length (candidates chunk)
    /\ geo_table st' = geo_table st
    /\ (sink_calls st' = sink_calls st
        \/ sink_calls st' = sink_calls st ++ [candidates chunk])
    /\ run_windows chunk_idx (Window env chunk :: rest) st
       = run_windows (chunk_idx + 1) rest st'.
Proof.
  intros Hsink Hne Hflush Hclock.
  destruct (process_window_reports env chunk_idx chunk st Hflush Hclock)
    as (l & st2 & st3 & Hb & Ht & Hs & Hf & Hg & Hc & Hlog & Hw).
  destruct (batch_insert_effect env (candidates chunk)
              (bump (failures chunk) l st))
    as (st2' & Hb' & _ & _ & _ & Hcase).
  rewrite Hb in Hb'. injection Hb' as <-.
  eexists. split; [exact Hw|].
  cbn [success_rows failed_rows geo_table sink_calls add_log add_total].
  rewrite Hs, Hf, Hg, Hc.
  destruct (candidates chunk) as [|v vs] eqn:Ec; [congruence|].
  assert (Hrun : run_windows chunk_idx (Window env chunk :: rest) st
                 = run_windows (chunk_idx + 1) rest
                     (add_log (InfoProgress (chunk_idx + 1)
                                 (List.length (v :: vs))
                                 (List.length chunk - List.length (v :: vs)))
                        (add_total (List.length chunk) st3)))
    by (cbn [run_windows]; unfold run_bind; now rewrite Hw).
  destruct Hsink as [E|E]; rewrite E in Hcase;
    destruct Hcase as (H1 & H2 & H3 & H4);
    rewrite H1, H2, H3, H4; cbn [success_rows failed_rows geo_table
                                  sink_calls bump];
    repeat split; auto.
Qed.

(** When the commit raises, the rows are counted as inserted and as
    failed. *)
Lemma fault_on_commit (env : window_env) (chunk_idx : nat)
    (chunk : list raw_row) (st : run_state) :
  sink env = SinkFaultsOnCommit ->
  rejections chunk = [] \/ append_faults env = false ->
  clock_stalled env = false ->
  exists st',
    process_window env chunk_idx chunk st = (st', Ret tt)
    /\ total_rows st' = total_rows st + List.length chunk
    /\ success_rows st' = success_rows st + List.length (candidates chunk)
    /\ failed_rows st' = failed_rows st + List.length chunk
    /\ geo_table st' = geo_table st.
Proof.
  intros Hsink Hflush Hclock.
  destruct (process_window_reports env chunk_idx chunk st Hflush Hclock)
    as (l & st2 & st3 & Hb & Ht & Hs & Hf & Hg & Hc & Hlog & Hw).
  destruct (batch_insert_effect env (candidates chunk)
              (bump (failures chunk) l st))
    as (st2' & Hb' & Ht2 & _ & _ & Hcase).
  rewrite Hb in Hb'. injection Hb' as <-.
  pose proof (candidates_plus_failures chunk) as Hcount.
  eexists. split; [exact Hw|].
  cbn [total_rows success_rows failed_rows geo_table add_log add_total].
  rewrite Ht, Hs, Hf, Hg, Ht2. rewrite Hsink in Hcase.
  destruct (candidates chunk) as [|v vs];
    destruct Hcase as (H1 & H2 & H3 & _); rewrite H1, H2, H3;
    cbn [total_rows success_rows failed_rows geo_table bump List.length] in *;
    repeat split; lia.
Qed.

(** X2: a window that ends normally keeps [total_rows = success_rows +
    failed_rows], unless the commit raised. *)
Lemma counters_partition_rows (env : window_env) (chunk_idx : nat)
    (chunk : list raw_row) (st st' : run_state) :
  sink env <> SinkFaultsOnCommit ->
  process_window env chunk_idx chunk st = (st', Ret tt) ->
  total_rows st = success_rows st + failed_rows st ->
  total_rows st' = success_rows st' + failed_rows st'.
Proof.
  intros Hsink Hrun Hinv.
  destruct (prepare_rows_summary chunk (mkPrepared [] []) st) as [l Hl].
  cbn [values bad_records app] in Hl.
  destruct (batch_insert_effect env (candidates chunk)
              (bump (failures chunk) l st))
    as (st2 & Hb & Ht2 & _ & _ & Hcase).
  pose proof (flush_bad_records_effect env (rejections chunk) st2) as Hf.
  pose proof (candidates_plus_failures chunk) as Hcount.
  unfold process_window, run_bind in Hrun.
  rewrite Hl in Hrun. cbn [values bad_records] in Hrun. rewrite Hb in Hrun.
  assert (Hst3 : exists st3,
             flush_bad_records env (rejections chunk) st2 = (st3, Ret tt)
             /\ total_rows st3 = total_rows st2
             /\ success_rows st3 = success_rows st2
             /\ failed_rows st3 = failed_rows st2).
  { destruct (rejections chunk) as [|b bs].
    - exists st2. now repeat split.
    - destruct (append_faults env).
      + rewrite Hf in Hrun. discriminate Hrun.
      + destruct Hf as (st3 & E & H1 & H2 & H3 & _). now exists st3. }
  destruct Hst3 as (st3 & Ef & H1 & H2 & H3).
  rewrite Ef in Hrun.
  unfold report_progress, run_bind, update, emit, update in Hrun.
  destruct (clock_stalled env); [discriminate Hrun|].
  injection Hrun as <-.
  cbn [total_rows success_rows failed_rows add_log add_total].
  rewrite H1, H2, H3, Ht2.
  destruct (candidates chunk) as [|v vs];
    [|destruct (sink env); [| | |congruence]];
    destruct Hcase as (Hs & Hfl & _); rewrite Hs, Hfl;
    cbn [total_rows success_rows failed_rows bump List.length] in *; lia.
Qed.
End LoaderProperties.

(** ** Runs on CSV cells *)

(** C3, where the code departs from it: one window with one good row whose
    commit raises.  The row has been added to [success_rows] inside the
    [with] block (line 166) before the commit, and the handler adds it to
    [failed_rows] as well. *)
Theorem commit_fault_counted_as_success :
  snd (process_window env_commit_fault 0 [row_shenyang] init_state) = Ret tt
  /\ success_rows
       (fst (process_window env_commit_fault 0 [row_shenyang] init_state)) = 1
  /\ failed_rows
       (fst (process_window env_commit_fault 0 [row_shenyang] init_state)) = 1
  /\ geo_table
       (fst (process_window env_commit_fault 0 [row_shenyang] init_state)) = [].
Proof.
  assert (Hflush : rejections [row_shenyang] = []
                   \/ append_faults env_commit_fault = false)
    by (right; reflexivity).
  destruct (fault_on_commit env_commit_fault 0 [row_shenyang] init_state
              eq_refl Hflush eq_refl)
    as (st' & E & _ & Hs & Hf & Hg).
  rewrite E. cbn [fst snd]. rewrite Hs, Hf, Hg. repeat split.
Qed.

(** C9, where the code departs from it: three rows, one with a malformed
    id, and a commit that raises; the window ends normally with three rows
    seen, two counted inserted and three counted failed. *)
Theorem commit_fault_breaks_partition :
  snd (process_window env_commit_fault 0
         [row_text_1; row_text_bad_id; row_text_3] init_state) = Ret tt
  /\ total_rows
       (fst (process_window env_commit_fault 0
               [row_text_1; row_text_bad_id; row_text_3] init_state)) = 3
  /\ success_rows
       (fst (process_window env_commit_fault 0
               [row_text_1; row_text_bad_id; row_text_3] init_state)) = 2
  /\ failed_rows
       (fst (process_window env_commit_fault 0
               [row_text_1; row_text_bad_id; row_text_3] init_state)) = 3.
Proof. repeat split; vm_compute; reflexivity. Qed.

(** C7, as stated, fails: the first window cannot open the rejection
    file; the run ends there, the second window is never read, and the
    rows of the first are missing from [total_rows]. *)
Lemma append_fault_stops_loader :
  snd (import_data [Window env_append_fault [row_open_area];
                    Window env_ok [row_shenyang]] false init_state) = Ret tt
  /\ logged (fst (import_data [Window env_append_fault [row_open_area];
                               Window env_ok [row_shenyang]] false init_state))
     = [WarnFewCoords "121 38,122 39"; CriticalAborted OSError;
        InfoSummary 0 1 0]
  /\ map rec_id
       (geo_table (fst (import_data [Window env_append_fault [row_open_area];
                                     Window env_ok [row_shenyang]]
                                    false init_state)))
     = [2102%Z]
  /\ bad_polygons_csv
       (fst (import_data [Window env_append_fault [row_open_area];
                          Window env_ok [row_shenyang]] false init_state))
     = [].
Proof. repeat split; vm_compute; reflexivity. Qed.

Lemma text_id_refused : int_coercion_fails row_text_bad_id.
Proof.
  exists "id", (CellStr "1x2"), ValueError.
  split; [now left|]. split; reflexivity.
Defined.

Lemma coercion_failure_witness :
  candidates [row_text_1; row_text_bad_id; row_text_3]
  = candidates [row_text_1; row_text_3]
  /\ failures [row_text_1; row_text_bad_id; row_text_3]
     = failures [row_text_1; row_text_3] + 1.
Proof.
  destruct (coercion_failure_drops_row [row_text_1] [row_text_3]
              row_text_bad_id text_id_refused)
    as (_ & Hc & _ & Hn & _).
  split; [exact Hc|exact Hn].
Defined.

Example three_row_window :
  List.length (candidates [row_text_1; row_text_bad_id; row_text_3]) = 2
  /\ failures [row_text_1; row_text_bad_id; row_text_3] = 1
  /\ rejections [row_text_1; row_text_bad_id; row_text_3] = [].
Proof. repeat split; vm_compute; reflexivity. Qed.

Lemma open_area_cells :
  has_cells row_open_area (CellInt 2102) (CellInt 21) (CellInt 1)
    (CellStr "Dalian") (CellStr "Liaoning Dalian") (CellStr "121.6 38.9")
    (CellStr "121 38,122 39").
Proof. repeat split. Defined.

Lemma bad_polygon_witness :
  row_values row_open_area
  = [mkRecord 2102 21 1 "Dalian" "Liaoning Dalian"
              (Some "POINT(121.6 38.9)") None]
  /\ row_bad row_open_area
     = [mkBad (CellInt 2102) "Invalid polygon format"
              (CellStr "121 38,122 39")]
  /\ row_fails row_open_area = false.
Proof.
  destruct (bad_polygon_keeps_row (cell_ops := csv_cell_ops) row_open_area
              (CellInt 2102) (CellInt 21) (CellInt 1) (CellStr "Dalian")
              (CellStr "Liaoning Dalian") (CellStr "121.6 38.9")
              (CellStr "121 38,122 39") 2102%Z 21%Z 1%Z
              open_area_cells eq_refl eq_refl eq_refl)
    as [Hpolygon _].
  destruct (Hpolygon eq_refl eq_refl) as (Hv & Hb & Hf & _).
  split; [exact Hv|]. split; [exact Hb|exact Hf].
Defined.

Lemma open_area_rejected : rejections [row_open_area] <> [].
Proof. vm_compute. discriminate. Defined.

Lemma append_fault_witness :
  exists st2,
    process_window env_append_fault 0 [row_open_area] init_state
    = (st2, Raise OSError)
    /\ run_try (run_windows 0 [Window env_append_fault [row_open_area];
                               Window env_ok [row_shenyang]])
               (fun e => emit (CriticalAborted e)) init_state
       = (add_log (CriticalAborted OSError) st2, Ret tt)
    /\ total_rows st2 = 0.
Proof.
  destruct (append_fault_ends_run env_append_fault 0 [row_open_area]
              [Window env_ok [row_shenyang]] init_state
              open_area_rejected eq_refl)
    as (st1 & p & st2 & _ & _ & Hw & Hrun & Ht & _).
  exists st2. split; [exact Hw|]. split; [exact Hrun|exact Ht].
Defined.

Lemma progress_line_witness :
  exists st1 p st',
    prepare_rows [row_text_1; row_text_bad_id; row_text_3]
      (mkPrepared [] []) init_state = (st1, Ret p)
    /\ process_window env_execute_fault 0
         [row_text_1; row_text_bad_id; row_text_3] init_state = (st', Ret tt)
    /\ (exists l,
          logged st'
          = logged init_state ++ l
            ++ [InfoProgress (0 + 1) (List.length (values p))
                  (List.length [row_text_1; row_text_bad_id; row_text_3]
                   - List.length (values p))])
    /\ List.length (values p)
       <= List.length [row_text_1; row_text_bad_id; row_text_3]
    /\ (values p <> [] -> sink env_execute_fault <> SinkCommits ->
        failed_rows st'
        = failed_rows init_state
          + List.length [row_text_1; row_text_bad_id; row_text_3]).
Proof.
  apply (progress_line_ignores_sink env_execute_fault 0
           [row_text_1; row_text_bad_id; row_text_3] init_state);
    [right; reflexivity|reflexivity].
Defined.

Example execute_fault_progress :
  logged (fst (process_window env_execute_fault 0
                 [row_text_1; row_text_bad_id; row_text_3] init_state))
  = [WarnFewCoords "1 1,2 2"; ErrorRow ValueError; ErrorBatch DBAPIError;
     InfoProgress 1 2 1]
  /\ failed_rows (fst (process_window env_execute_fault 0
                         [row_text_1; row_text_bad_id; row_text_3]
                         init_state)) = 3
  /\ success_rows (fst (process_window env_execute_fault 0
                          [row_text_1; row_text_bad_id; row_text_3]
                          init_state)) = 0.
Proof. repeat split; vm_compute; reflexivity. Qed.

(** ** What one window does, field by field *)

Section WindowEffect.
Context {cell : Type} {cell_ops : PandasCell cell}.

Lemma batch_insert_fields (env : window_env) (vs : list geo_record)
    (st : run_state) :
  snd (batch_insert env vs st) = Ret tt
  /\ total_rows (fst (batch_insert env vs st)) = total_rows st
  /\ bad_polygons_csv (fst (batch_insert env vs st)) = bad_polygons_csv st
  /\ (exists l, logged (fst (batch_insert env vs st)) = logged st ++ l)
  /\ geo_table (fst (batch_insert env vs st))
     = geo_table st ++ match sink env with SinkCommits => vs | _ => [] end
  /\ sink_calls (fst (batch_insert env vs st))
     = sink_calls st
       ++ match vs, sink env with
          | [], _ => []
          | _ :: _, SinkFaultsOnBegin => []
          | _ :: _, _ => [vs]
          end
  /\ success_rows (fst (batch_insert env vs st))
     = success_rows st
       + match sink env with
         | SinkCommits | SinkFaultsOnCommit => List.length vs
         | _ => 0
         end
  /\ failed_rows (fst (batch_insert env vs st))
     = failed_rows st
       + match sink env with SinkCommits => 0 | _ => List.length vs end.
Proof.
  destruct (batch_insert_effect env vs st)
    as (st2 & E & Ht & Hcsv & Hlog & Hcase).
  rewrite E. cbn [fst snd].
  split; [reflexivity|]. split; [exact Ht|]. split; [exact Hcsv|].
  split; [exact Hlog|].
  destruct vs as [|v vs'].
  - destruct Hcase as (Hs & Hf & Hg & Hc). rewrite Hs, Hf, Hg, Hc.
    destruct (sink env); cbn [List.length];
      rewrite ?app_nil_r, ?Nat.add_0_r; repeat split.
  - destruct (sink env); destruct Hcase as (Hs & Hf & Hg & Hc);
      rewrite Hs, Hf, Hg, Hc;
      rewrite ?app_nil_r, ?Nat.add_0_r; repeat split.
Qed.

Lemma flush_bad_records_fields (env : window_env)
    (bs : list (bad_record cell)) (st : run_state) :
  snd (flush_bad_records env bs st)
  = match bs, append_faults env with
    | _ :: _, true => Raise OSError
    | _, _ => Ret tt
    end
  /\ total_rows (fst (flush_bad_records env bs st)) = total_rows st
  /\ success_rows (fst (flush_bad_records env bs st)) = success_rows st
  /\ failed_rows (fst (flush_bad_records env bs st)) = failed_rows st
  /\ geo_table (fst (flush_bad_records env bs st)) = geo_table st
  /\ sink_calls (fst (flush_bad_records env bs st)) = sink_calls st
  /\ logged (fst (flush_bad_records env bs st)) = logged st
  /\ bad_polygons_csv (fst (flush_bad_records env bs st))
     = bad_polygons_csv st
       ++ (if append_faults env then [] else map bad_line bs).
Proof.
  pose proof (flush_bad_records_effect env bs st) as Hf.
  destruct bs as [|b rest].
  - rewrite Hf. cbn [fst snd map].
    destruct (append_faults env); rewrite app_nil_r; repeat split.
  - destruct (append_faults env).
    + rewrite Hf. cbn [fst snd]. rewrite app_nil_r. repeat split.
    + destruct Hf as (st3 & E & H1 & H2 & H3 & H4 & H5 & H6 & H7).
      rewrite E. cbn [fst snd]. repeat split; assumption.
Qed.

(** The state and the result of one pass through the loop body, for every
    behaviour of the sink, of the rejection file and of the clock. *)
Lemma window_effect (env : window_env) (chunk_idx : nat)
    (chunk : list raw_row) (st : run_state) :
  snd (process_window env chunk_idx chunk st)
  = match rejections chunk, append_faults env with
    | _ :: _, true => Raise OSError
    | _, _ => if clock_stalled env then Raise ZeroDivisionError else Ret tt
    end
  /\ geo_table (fst (process_window env chunk_idx chunk st))
     = geo_table st
       ++ match sink env with SinkCommits => candidates chunk | _ => [] end
  /\ sink_calls (fst (process_window env chunk_idx chunk st))
     = sink_calls st
       ++ match candidates chunk, sink env with
          | [], _ => []
          | _ :: _, SinkFaultsOnBegin => []
          | _ :: _, _ => [candidates chunk]
          end
  /\ success_rows (fst (process_window env chunk_idx chunk st))
     = success_rows st
       + match sink env with
         | SinkCommits | SinkFaultsOnCommit => List.length (candidates chunk)
         | _ => 0
         end
  /\ failed_rows (fst (process_window env chunk_idx chunk st))
     = failed_rows st + failures chunk
       + match sink env with
         | SinkCommits => 0
         | _ => List.length (candidates chunk)
         end
  /\ total_rows (fst (process_window env chunk_idx chunk st))
     = total_rows st
       + match rejections chunk, append_faults env with
         | _ :: _, true => 0
         | _, _ => List.length chunk
         end
  /\ bad_polygons_csv (fst (process_window env chunk_idx chunk st))
     = bad_polygons_csv st
       ++ (if append_faults env then [] else map bad_line (rejections chunk))
  /\ (exists l,
        logged (fst (process_window env chunk_idx chunk st))
        = logged st ++ l).
Proof.
  destruct (prepare_rows_summary chunk (mkPrepared [] []) st) as [l Hl].
  cbn [values bad_records app] in Hl.
  pose proof (batch_insert_fields env (candidates chunk)
                (bump (failures chunk) l st))
    as (Br & Bt & Bcsv & [lb Blog] & Bg & Bc & Bs & Bf).
  destruct (batch_insert env (candidates chunk) (bump (failures chunk) l st))
    as [st2 r2] eqn:Eb.
  cbn [fst snd] in *. subst r2.
  pose proof (flush_bad_records_fields env (rejections chunk) st2)
    as (Fr & Ft & Fs & Ff & Fg & Fc & Flog & Fcsv).
  destruct (flush_bad_records env (rejections chunk) st2)
    as [st3 r3] eqn:Ef.
  cbn [fst snd] in *.
  unfold process_window, run_bind. rewrite Hl. cbn [values bad_records].
  rewrite Eb, Ef.
  assert (Hcommon :
    geo_table st3
    = geo_table st
      ++ match sink env with SinkCommits => candidates chunk | _ => [] end
    /\ sink_calls st3
       = sink_calls st
         ++ match candidates chunk, sink env with
            | [], _ => []
            | _ :: _, SinkFaultsOnBegin => []
            | _ :: _, _ => [candidates chunk]
            end
    /\ success_rows st3
       = success_rows st
         + match sink env with
           | SinkCommits | SinkFaultsOnCommit =>
               List.length (candidates chunk)
           | _ => 0
           end
    /\ failed_rows st3
       = failed_rows st + failures chunk
         + match sink env with
           | SinkCommits => 0
           | _ => List.length (candidates chunk)
           end
    /\ total_rows st3 = total_rows st
    /\ bad_polygons_csv st3
       = bad_polygons_csv st
         ++ (if append_faults env then []
             else map bad_line (rejections chunk))
    /\ logged st3 = logged st ++ (l ++ lb)).
  { rewrite Fg, Fc, Fs, Ff, Ft, Fcsv, Flog, Bg, Bc, Bs, Bf, Bt, Bcsv, Blog.
    cbn [geo_table sink_calls success_rows failed_rows total_rows
         bad_polygons_csv logged bump].
    rewrite <- app_assoc. repeat split. }
  destruct Hcommon as (Hg & Hc & Hs & Hf & Ht & Hcsv & Hlog).
  destruct (rejections chunk) as [|b bs]; [|destruct (append_faults env)];
    subst r3; cbv beta iota.
  2: { cbn [fst snd]. rewrite Nat.add_0_r.
       repeat split; try assumption. eexists; exact Hlog. }
  all: unfold report_progress, run_bind, update, emit, update, run_raise,
         run_ret;
    destruct (clock_stalled env); cbn [fst snd];
    cbn [geo_table sink_calls success_rows failed_rows total_rows
         bad_polygons_csv logged add_total add_log];
    rewrite Hg, Hc, Hs, Hf, Ht, Hcsv, Hlog;
    repeat split; try rewrite <- app_assoc; eexists; reflexivity.
Qed.
End WindowEffect.

(** ** Further properties of the loader *)

Section LoaderCoverage.
Context {cell : Type} {cell_ops : PandasCell cell}.

Ltac row_case :=
  match goal with
  | |- context [match row_get ?r ?c with _ => _ end] =>
      destruct (row_get r c)
  | |- context [if pd_notna ?c then _ else _] => destruct (pd_notna c)
  | |- context [prepare_polygon (PyStr ?s) ?st] =>
      rewrite (prepare_polygon_str s st)
  | |- context [match prepare_point ?v with _ => _ end] =>
      destruct (prepare_point v)
  | |- context [match py_int ?c with _ => _ end] => destruct (py_int c)
  end; cbv beta iota.

Ltac known_cells :=
  repeat match goal with
         | H : row_get _ _ = _ |- _ => rewrite H
         | H : py_int _ = _ |- _ => rewrite H
         end.

Ltac row_raises H :=
  exfalso; revert H; unfold row_result, prepare_row;
  cbv [run_bind lift run_ret]; cbv beta iota; known_cells;
  repeat row_case; cbn [snd]; discriminate.

(** A row that yields a record has its seven columns, and [int()] accepts
    its id, pid and deep. *)
Lemma row_result_inv (row : raw_row)
    (rb : geo_record * list (bad_record cell)) :
  row_result row = Ret rb ->
  exists id_c pid_c deep_c name_c ext_path_c geo_c polygon_c id pid deep,
    has_cells row id_c pid_c deep_c name_c ext_path_c geo_c polygon_c
    /\ py_int id_c = Ret id /\ py_int pid_c = Ret pid
    /\ py_int deep_c = Ret deep.
Proof.
  intros Hrb.
  destruct (row_get row "geo") as [geo_c|] eqn:Hgeo; [|row_raises Hrb].
  destruct (row_get row "polygon") as [polygon_c|] eqn:Hpol;
    [|row_raises Hrb].
  destruct (row_get row "id") as [id_c|] eqn:Hid; [|row_raises Hrb].
  destruct (py_int id_c) as [id|] eqn:Iid; [|row_raises Hrb].
  destruct (row_get row "pid") as [pid_c|] eqn:Hpid; [|row_raises Hrb].
  destruct (py_int pid_c) as [pid|] eqn:Ipid; [|row_raises Hrb].
  destruct (row_get row "deep") as [deep_c|] eqn:Hdeep; [|row_raises Hrb].
  destruct (py_int deep_c) as [deep|] eqn:Ideep; [|row_raises Hrb].
  destruct (row_get row "name") as [name_c|] eqn:Hname; [|row_raises Hrb].
  destruct (row_get row "ext_path") as [ext_path_c|] eqn:Hext;
    [|row_raises Hrb].
  exists id_c, pid_c, deep_c, name_c, ext_path_c, geo_c, polygon_c,
    id, pid, deep.
  unfold has_cells. repeat split; assumption.
Qed.

(** What a row puts into [bad_records]: nothing, or one entry for a
    polygon cell that is present and does not normalise; the row is then a
    candidate with no polygon. *)
Lemma row_bad_sound (row : raw_row) :
  row_bad row = []
  \/ exists b r,
       row_bad row = [b] /\ row_values row = [r]
       /\ rec_polygon r = None
       /\ bad_reason b = "Invalid polygon format"
       /\ row_get row "polygon" = Ret (bad_data b)
       /\ row_get row "id" = Ret (bad_id b)
       /\ pd_notna (bad_data b) = true
       /\ polygon_pipeline (py_str (bad_data b)) = None.
Proof.
  unfold row_bad, row_values.
  destruct (row_result row) as [rb|e] eqn:Hrb; [|now left].
  destruct (row_result_inv row rb Hrb)
    as (id_c & pid_c & deep_c & name_c & ext_c & geo_c & polygon_c
        & id & pid & deep & Hcells & Iid & Ipid & Ideep).
  rewrite (prepare_row_record row _ _ _ _ _ _ _ _ _ _
             Hcells Iid Ipid Ideep) in Hrb.
  injection Hrb as <-. cbn [fst snd].
  destruct Hcells as (Hid & _ & _ & _ & _ & _ & Hpol).
  unfold polygon_wkt_of.
  destruct (pd_notna polygon_c) eqn:Hna; [|now left].
  destruct (polygon_pipeline (py_str polygon_c)) as [w|] eqn:Hw.
  - rewrite (polygon_pipeline_truthy _ _ Hw). now left.
  - right. eexists _, _. cbn [opt_truth negb andb].
    split; [reflexivity|]. split; [reflexivity|].
    cbn [rec_polygon bad_reason bad_data bad_id]. repeat split; assumption.
Qed.

Lemma rejections_sound (chunk : list raw_row) :
  Forall (fun b => bad_reason b = "Invalid polygon format"
                   /\ pd_notna (bad_data b) = true
                   /\ polygon_pipeline (py_str (bad_data b)) = None)
         (rejections chunk)
  /\ List.length (rejections chunk) <= List.length (candidates chunk).
Proof.
  unfold rejections, candidates.
  induction chunk as [|row rest [IHf IHl]]; [split; [constructor|auto]|].
  cbn [flat_map]. rewrite !length_app.
  destruct (row_bad_sound row)
    as [Hb|(b & r & Hb & Hv & _ & Hr & _ & _ & Hna & Hnone)];
    rewrite Hb.
  - split; [exact IHf|]. cbn [List.length]. lia.
  - rewrite Hv. split; [|cbn [List.length]; lia].
    constructor; [now repeat split|exact IHf].
Qed.

(** X3: the loop over the rows of a window never raises; every row ends
    either in [values] or in the count of failed rows, never in both;
    [bad_records] has at most one entry per candidate; nothing but
    [failed_rows] and the log changes. *)
Theorem prepare_rows_accounts (chunk : list raw_row) (st : run_state) :
  exists st1 p,
    prepare_rows chunk (mkPrepared [] []) st = (st1, Ret p)
    /\ failed_rows st1 + List.length (values p)
       = failed_rows st + List.length chunk
    /\ List.length (bad_records p) <= List.length (values p)
    /\ total_rows st1 = total_rows st /\ success_rows st1 = success_rows st
    /\ geo_table st1 = geo_table st /\ sink_calls st1 = sink_calls st
    /\ bad_polygons_csv st1 = bad_polygons_csv st.
Proof.
  destruct (prepare_rows_summary chunk (mkPrepared [] []) st) as [l Hl].
  cbn [values bad_records app] in Hl.
  pose proof (candidates_plus_failures chunk) as Hcount.
  destruct (rejections_sound chunk) as [_ Hle].
  eexists _, _. split; [exact Hl|].
  cbn [values bad_records failed_rows total_rows success_rows geo_table
       sink_calls bad_polygons_csv bump].
  repeat split; [lia|exact Hle].
Qed.

(** X4: a window changes the table all or nothing: it gains exactly the
    candidates of the window when the sink commits and nothing otherwise;
    [execute] is called at most once, with all the candidates, and not at
    all when no row of the window was prepared. *)
Theorem window_all_or_nothing (env : window_env) (chunk_idx : nat)
    (chunk : list raw_row) (st : run_state) :
  geo_table (fst (process_window env chunk_idx chunk st))
  = geo_table st
    ++ match sink env with SinkCommits => candidates chunk | _ => [] end
  /\ (candidates chunk = [] ->
      sink_calls (fst (process_window env chunk_idx chunk st))
      = sink_calls st)
  /\ (sink_calls (fst (process_window env chunk_idx chunk st))
      = sink_calls st
      \/ sink_calls (fst (process_window env chunk_idx chunk st))
         = sink_calls st ++ [candidates chunk]).
Proof.
  destruct (window_effect env chunk_idx chunk st) as (_ & Hg & Hc & _).
  split; [exact Hg|]. rewrite Hc.
  destruct (candidates chunk) as [|v vs].
  - rewrite app_nil_r. split; [reflexivity|now left].
  - split; [discriminate|].
    destruct (sink env); rewrite ?app_nil_r; auto.
Qed.

(** X5: a window appends to the rejection file one line per entry of
    [bad_records], in the order of the rows, or nothing when the file
    cannot be opened; every entry is for a polygon cell that is present
    and does not normalise, and there are no more entries than
    candidates. *)
Theorem rejection_file_lines (env : window_env) (chunk_idx : nat)
    (chunk : list raw_row) (st : run_state) :
  bad_polygons_csv (fst (process_window env chunk_idx chunk st))
  = bad_polygons_csv st
    ++ (if append_faults env then [] else map bad_line (rejections chunk))
  /\ Forall (fun b => bad_reason b = "Invalid polygon format"
                      /\ pd_notna (bad_data b) = true
                      /\ polygon_pipeline (py_str (bad_data b)) = None)
            (rejections chunk)
  /\ List.length (rejections chunk) <= List.length (candidates chunk).
Proof.
  destruct (window_effect env chunk_idx chunk st)
    as (_ & _ & _ & _ & _ & _ & Hcsv & _).
  destruct (rejections_sound chunk) as [Hf Hl].
  split; [exact Hcsv|]. split; [exact Hf|exact Hl].
Qed.

(** X6: when the elapsed time of a window is zero, the division of line
    184 raises after the batch was written and the rows were added to
    [total_rows]; the exception reaches the outer handler and the run
    ends there. *)
Theorem zero_elapsed_time_ends_run (env : window_env) (chunk_idx : nat)
    (chunk : list raw_row) (rest : list stream_item) (st : run_state) :
  clock_stalled env = true ->
  rejections chunk = [] \/ append_faults env = false ->
  snd (process_window env chunk_idx chunk st) = Raise ZeroDivisionError
  /\ run_try (run_windows chunk_idx (Window env chunk :: rest))
             (fun e => emit (CriticalAborted e)) st
     = (add_log (CriticalAborted ZeroDivisionError)
          (fst (process_window env chunk_idx chunk st)), Ret tt)
  /\ total_rows (fst (process_window env chunk_idx chunk st))
     = total_rows st + List.length chunk
  /\ geo_table (fst (process_window env chunk_idx chunk st))
     = geo_table st
       ++ match sink env with SinkCommits => candidates chunk | _ => [] end.
Proof.
  intros Hclock Hflush.
  destruct (window_effect env chunk_idx chunk st)
    as (Hr & Hg & _ & _ & _ & Ht & _).
  rewrite Hclock in Hr.
  assert (Hr' : snd (process_window env chunk_idx chunk st)
                = Raise ZeroDivisionError).
  { rewrite Hr. destruct (rejections chunk); [reflexivity|].
    destruct Hflush as [E|E]; [discriminate E|now rewrite E]. }
  assert (Ht' : total_rows (fst (process_window env chunk_idx chunk st))
                = total_rows st + List.length chunk).
  { rewrite Ht. destruct (rejections chunk); [reflexivity|].
    destruct Hflush as [E|E]; [discriminate E|now rewrite E]. }
  split; [exact Hr'|]. split; [|split; [exact Ht'|exact Hg]].
  clear Hr Ht. unfold run_try. cbn [run_windows]. unfold run_bind.
  destruct (process_window env chunk_idx chunk st) as [st' r].
  cbn [fst snd] in *. subst r. reflexivity.
Qed.

(** *** Whole runs *)

Lemma run_windows_related (R : run_state -> run_state -> Prop)
    (P : stream_item -> Prop) :
  (forall st, R st st) ->
  (forall a b c, R a b -> R b c -> R a c) ->
  (forall env chunk_idx chunk st,
      P (Window env chunk) ->
      R st (fst (process_window env chunk_idx chunk st))) ->
  forall items chunk_idx st,
    Forall P items -> R st (fst (run_windows chunk_idx items st)).
Proof.
  intros Hrefl Htrans Hstep items.
  induction items as [|it rest IH]; intros chunk_idx st Hall.
  - apply Hrefl.
  - inversion Hall as [|? ? Hit Hrest]; subst.
    destruct it as [env chunk|]; cbn [run_windows]; [|apply Hrefl].
    unfold run_bind.
    pose proof (Hstep env chunk_idx chunk st Hit) as H1.
    destruct (process_window env chunk_idx chunk st) as [st1 [u|e]];
      cbn [fst] in *; [|exact H1].
    apply (Htrans _ st1); [exact H1|]. now apply IH.
Qed.

Lemma import_data_state (items : list stream_item) (b : bool)
    (st : run_state) :
  exists s,
    (s = fst (run_windows 0 items (reset_counters st))
     \/ exists e,
          s = add_log (CriticalAborted e)
                (fst (run_windows 0 items (reset_counters st))))
    /\ import_data items b st
       = if b then (s, Raise ZeroDivisionError)
         else (add_log (InfoSummary (total_rows s) (success_rows s)
                          (failed_rows s)) s, Ret tt).
Proof.
  unfold import_data, run_bind, run_try, update, emit, update, run_raise,
    run_ret.
  destruct (run_windows 0 items (reset_counters st)) as [s [u|e]];
    cbn [fst].
  - exists s. split; [now left|]. now destruct b.
  - eexists. split; [right; eexists; reflexivity|]. now destruct b.
Qed.

(** X7: whatever the windows do, a run whose total time is not zero
    raises nothing and ends by logging the summary of its three
    counters. *)
Theorem summary_always_logged (items : list stream_item) (st : run_state) :
  snd (import_data items false st) = Ret tt
  /\ exists l,
       logged (fst (import_data items false st))
       = l ++ [InfoSummary
                 (total_rows (fst (import_data items false st)))
                 (success_rows (fst (import_data items false st)))
                 (failed_rows (fst (import_data items false st)))].
Proof.
  destruct (import_data_state items false st) as (s & _ & E).
  rewrite E. cbn [fst snd]. split; [reflexivity|].
  exists (logged s). reflexivity.
Qed.

(** X8: a run only adds: the rows committed by earlier windows, the lines
    already in the rejection file and the log entries stay where they are
    whatever faults later (there is no rollback of earlier windows). *)
Theorem run_only_appends (items : list stream_item) (b : bool)
    (st : run_state) :
  exists rows lines entries,
    geo_table (fst (import_data items b st)) = geo_table st ++ rows
    /\ bad_polygons_csv (fst (import_data items b st))
       = bad_polygons_csv st ++ lines
    /\ logged (fst (import_data items b st)) = logged st ++ entries.
Proof.
  set (R := fun a c : run_state =>
              exists rows lines entries,
                geo_table c = geo_table a ++ rows
                /\ bad_polygons_csv c = bad_polygons_csv a ++ lines
                /\ logged c = logged a ++ entries).
  assert (Hrefl : forall a, R a a).
  { intros a. exists [], [], []. now rewrite !app_nil_r. }
  assert (Htrans : forall a c d, R a c -> R c d -> R a d).
  { intros a c d (r1 & l1 & e1 & G1 & C1 & L1) (r2 & l2 & e2 & G2 & C2 & L2).
    exists (r1 ++ r2), (l1 ++ l2), (e1 ++ e2).
    rewrite G2, C2, L2, G1, C1, L1. now rewrite !app_assoc. }
  assert (Hrun : R (reset_counters st)
                   (fst (run_windows 0 items (reset_counters st)))).
  { apply (run_windows_related R (fun _ => True)); auto.
    - intros env chunk_idx chunk a _.
      destruct (window_effect env chunk_idx chunk a)
        as (_ & Hg & _ & _ & _ & _ & Hcsv & [l Hl]).
      eexists _, _, _. split; [exact Hg|]. split; [exact Hcsv|exact Hl].
    - apply Forall_forall. auto. }
  assert (Hst : R st (reset_counters st)).
  { exists [], [], []. cbn. now rewrite !app_nil_r. }
  destruct (import_data_state items b st) as (s & Hs & E).
  assert (Hs' : R st s).
  { apply (Htrans _ _ _ Hst).
    destruct Hs as [->|[e ->]]; [exact Hrun|].
    apply (Htrans _ _ _ Hrun). exists [], [], [CriticalAborted e].
    now rewrite !app_nil_r. }
  rewrite E. destruct b; cbn [fst]; [exact Hs'|].
  apply (Htrans _ _ _ Hs'). eexists [], [], [_]. now rewrite !app_nil_r.
Qed.

(** X9: when no commit raises, [success_rows] at the end of a run is the
    number of rows the run added to the table, whatever else faulted. *)
Theorem success_rows_are_committed (items : list stream_item) (b : bool)
    (st : run_state) :
  Forall commit_holds items ->
  List.length (geo_table (fst (import_data items b st)))
  = List.length (geo_table st) + success_rows (fst (import_data items b st)).
Proof.
  intros Hall.
  set (R := fun a c : run_state =>
              List.length (geo_table c) + success_rows a
              = List.length (geo_table a) + success_rows c).
  assert (Hrun : R (reset_counters st)
                   (fst (run_windows 0 items (reset_counters st)))).
  { apply (run_windows_related R commit_holds); unfold R; auto.
    - intros a c d H1 H2. lia.
    - intros env chunk_idx chunk a Hc. cbn [commit_holds] in Hc.
      destruct (window_effect env chunk_idx chunk a)
        as (_ & Hg & _ & Hs & _).
      rewrite Hg, Hs, length_app.
      destruct (sink env); cbn [List.length]; try lia. congruence. }
  unfold R in Hrun. cbn [reset_counters geo_table success_rows] in Hrun.
  destruct (import_data_state items b st) as (s & Hs & E).
  rewrite E.
  assert (Hlen : List.length (geo_table s)
                 = List.length (geo_table st) + success_rows s).
  { destruct Hs as [->|[e ->]];
      cbn [geo_table success_rows add_log]; lia. }
  destruct b; cbn [fst geo_table success_rows add_log]; exact Hlen.
Qed.


End LoaderCoverage.

(** ** Further properties of the three helpers *)

Lemma passes_validator_split (t u : string) :
  py_split t = py_split u -> passes_validator t = passes_validator u.
Proof.
  intros E. rewrite !validate_coordinate_unfold, !split_strip. now rewrite E.
Qed.

(** X11: the verdict of [validate_coordinate] depends only on the tokens
    of the text: white space around the text, as with a trimmed text, does
    not change it. *)
Theorem validate_ignores_padding (t : string) :
  validate_coordinate (PyStr (py_strip t)) = validate_coordinate (PyStr t)
  /\ (forall w1 w2,
        all_space w1 = true -> all_space w2 = true ->
        validate_coordinate (PyStr (w1 ++ t ++ w2))
        = validate_coordinate (PyStr t))
  /\ (forall u, py_split u = py_split t ->
        validate_coordinate (PyStr u) = validate_coordinate (PyStr t)).
Proof.
  rewrite !passes_validator_spec. split; [|split].
  - f_equal. apply passes_validator_split, split_strip.
  - intros w1 w2 H1 H2. rewrite passes_validator_spec. f_equal.
    apply passes_validator_split.
    rewrite (split_space_prefix _ _ H1). unfold py_split.
    now rewrite (split_scan_space_suffix _ _ H2).
  - intros u E. rewrite passes_validator_spec. f_equal.
    now apply passes_validator_split.
Qed.

Lemma close_ring_shape (kept : list string) :
  3 <= List.length kept ->
  exists first middle,
    close_ring kept = first :: middle ++ [first]
    /\ (4 <= List.length (close_ring kept) -> 2 <= List.length middle)
    /\ In first kept /\ (forall t, In t middle -> In t kept).
Proof.
  intros Hlen. destruct kept as [|first rest]; [cbn in Hlen; lia|].
  cbn [close_ring].
  destruct (String.eqb first (List.last (first :: rest) first)) eqn:E.
  - apply String.eqb_eq in E.
    destruct rest as [|r rest' _] using rev_ind; [cbn in Hlen; lia|].
    change (first :: rest' ++ [r]) with ((first :: rest') ++ [r]) in E.
    rewrite last_last in E. subst r.
    exists first, rest'. split; [reflexivity|].
    split; [cbn [List.length]; rewrite length_app; cbn; lia|].
    split; [now left|]. intros t Ht. right. apply in_or_app. now left.
  - exists first, rest. split; [reflexivity|].
    split; [cbn [List.length] in *; lia|].
    split; [now left|]. intros t Ht. now right.
Qed.

(** X12: a polygon that [prepare_polygon] returns is a closed ring: the
    text is [POLYGON((] first, at least two more tokens, first again [))],
    and every token passes the validator. *)
Theorem polygon_result_is_closed_ring (s w : string) (st : run_state) :
  snd (prepare_polygon (PyStr s) st) = Ret (Some w) ->
  exists first middle,
    w = ("POLYGON((" ++ String.concat "," (first :: middle ++ [first])
         ++ "))")%string
    /\ 2 <= List.length middle
    /\ Forall (fun t => passes_validator t = true) (first :: middle).
Proof.
  rewrite prepare_polygon_str. cbn [snd]. unfold polygon_pipeline.
  set (kept := filter passes_validator
                 (map py_strip (py_split_on "," (strip_brackets s)))).
  destruct (List.length kept <? 3)%nat eqn:H3; [discriminate|].
  destruct (List.length (close_ring kept) <? 4)%nat eqn:H4; [discriminate|].
  intros E. injection E as <-.
  apply Nat.ltb_ge in H3, H4.
  destruct (close_ring_shape kept H3) as (first & middle & Hr & Hm & Hf & Hin).
  exists first, middle. rewrite Hr. split; [reflexivity|].
  split; [auto|].
  assert (Hk : forall t, In t kept -> passes_validator t = true)
    by (intros t Ht; apply filter_In in Ht; tauto).
  constructor; [auto|]. apply Forall_forall. auto.
Qed.

(** X13: brackets carry no meaning for [prepare_polygon]: two texts that
    are equal once every bracket is removed give the same result, so rings
    written one after the other are read as one ring. *)
Theorem polygon_ignores_brackets (s s' : string) (st st' : run_state) :
  strip_brackets s = strip_brackets s' ->
  snd (prepare_polygon (PyStr s) st) = snd (prepare_polygon (PyStr s') st').
Proof.
  intros E. rewrite !prepare_polygon_str. cbn [snd].
  unfold polygon_pipeline. now rewrite E.
Qed.

(** X14: on a string [prepare_polygon] touches nothing but the log; it
    logs nothing when it returns a polygon or was given the empty string,
    and exactly one warning carrying the raw text when it rejects a
    non-empty string; the handler of lines 81-83 is never entered. *)
Theorem polygon_logging (s : string) (st : run_state) :
  exists l,
    prepare_polygon (PyStr s) st = (append_logs l st, Ret (polygon_pipeline s))
    /\ (s = EmptyString -> l = [])
    /\ (forall w, polygon_pipeline s = Some w -> l = [])
    /\ (s <> EmptyString -> polygon_pipeline s = None ->
        l = [WarnFewCoords s] \/ l = [WarnFewAfterClosing s]).
Proof.
  exists (polygon_warnings s). split; [apply prepare_polygon_str|].
  unfold polygon_warnings, polygon_pipeline.
  destruct (String.eqb s EmptyString) eqn:Hs.
  - apply String.eqb_eq in Hs. subst s.
    split; [reflexivity|]. split; [reflexivity|]. intros H. congruence.
  - apply String.eqb_neq in Hs. split; [congruence|].
    destruct (List.length _ <? 3)%nat; [split; [discriminate|auto]|].
    destruct (List.length _ <? 4)%nat; [split; [discriminate|auto]|].
    split; [reflexivity|discriminate].
Qed.

(** *** Normalising a polygon that was already normalised *)

Lemma lstrip_idempotent (s : string) :
  lstrip_by py_isspace (lstrip_by py_isspace s) = lstrip_by py_isspace s.
Proof.
  induction s as [|c r IH]; [reflexivity|]. simpl.
  destruct (py_isspace c) eqn:Hc; [exact IH|]. simpl. now rewrite Hc.
Qed.

Lemma rstrip_idempotent (s : string) :
  rstrip_by py_isspace (rstrip_by py_isspace s) = rstrip_by py_isspace s.
Proof.
  induction s as [|c r IH]; [reflexivity|]. simpl.
  destruct (rstrip_by py_isspace r) as [|c' r'] eqn:Hr.
  - destruct (py_isspace c) eqn:Hc; [reflexivity|]. simpl. now rewrite Hc.
  - change (rstrip_by py_isspace (String c (String c' r')))
      with (match rstrip_by py_isspace (String c' r') with
            | EmptyString =>
                if py_isspace c then EmptyString else String c EmptyString
            | String c2 r2 => String c (String c2 r2)
            end).
    now rewrite IH.
Qed.

Lemma lstrip_rstrip_commute (s : string) :
  lstrip_by py_isspace (rstrip_by py_isspace s)
  = rstrip_by py_isspace (lstrip_by py_isspace s).
Proof.
  induction s as [|c r IH]; [reflexivity|].
  cbn [lstrip_by]. destruct (py_isspace c) eqn:Hc.
  - cbn [rstrip_by]. rewrite Hc.
    destruct (rstrip_by py_isspace r) as [|c' r'] eqn:Hr.
    + rewrite <- IH. reflexivity.
    + rewrite <- IH. cbn [lstrip_by]. now rewrite Hc.
  - cbn [rstrip_by]. rewrite Hc.
    destruct (rstrip_by py_isspace r) as [|c' r'];
      cbn [lstrip_by]; now rewrite Hc.
Qed.

Lemma strip_idempotent (s : string) : py_strip (py_strip s) = py_strip s.
Proof.
  unfold py_strip.
  rewrite (lstrip_rstrip_commute (lstrip_by py_isspace s)).
  now rewrite rstrip_idempotent, lstrip_idempotent.
Qed.

Lemma plain_lstrip (t : string) :
  plain t = true -> plain (lstrip_by py_isspace t) = true.
Proof.
  induction t as [|c r IH]; [reflexivity|]. intros H. cbn [lstrip_by].
  destruct (py_isspace c); [|exact H].
  cbn [plain] in H. apply andb_true_iff in H. now apply IH.
Qed.

Lemma plain_rstrip (t : string) :
  plain t = true -> plain (rstrip_by py_isspace t) = true.
Proof.
  induction t as [|c r IH]; [reflexivity|]. intros H.
  cbn [plain] in H. apply andb_true_iff in H. destruct H as [Hc Hr].
  cbn [rstrip_by]. specialize (IH Hr).
  destruct (rstrip_by py_isspace r) as [|c' r'].
  - destruct (py_isspace c); [reflexivity|]. cbn [plain].
    now rewrite Hc.
  - cbn [plain] in *. now rewrite Hc, IH.
Qed.

Lemma plain_strip (t : string) : plain t = true -> plain (py_strip t) = true.
Proof. intros H. now apply plain_rstrip, plain_lstrip. Qed.

Lemma plain_app (a b : string) :
  plain a = true -> plain b = true -> plain (a ++ b) = true.
Proof.
  induction a as [|c r IH]; [auto|]. cbn [plain append]. intros H Hb.
  apply andb_true_iff in H. destruct H as [Hc Hr]. now rewrite Hc, IH.
Qed.

(** The tokens between the commas of a text without brackets. *)
Lemma split_tokens_plain (s : string) :
  Forall (fun t => plain t = true) (py_split_on "," (strip_brackets s)).
Proof.
  induction s as [|a r IH]; [repeat constructor|].
  cbn [strip_brackets]. destruct (is_bracket a) eqn:Hb; [exact IH|].
  cbn [py_split_on]. destruct (Ascii.eqb a ",") eqn:Hc.
  - constructor; [reflexivity|exact IH].
  - destruct (py_split_on "," (strip_brackets r)) as [|t ts].
    + repeat constructor. cbn [plain]. now rewrite Hb, Hc.
    + inversion IH as [|? ? Ht Hts]; subst.
      constructor; [|exact Hts]. cbn [plain]. now rewrite Hb, Hc, Ht.
Qed.

Lemma plain_no_bracket (t : string) :
  plain t = true -> strip_brackets t = t.
Proof.
  induction t as [|c r IH]; [reflexivity|]. cbn [plain strip_brackets].
  intros H. apply andb_true_iff in H. destruct H as [Hc Hr].
  apply andb_true_iff in Hc. destruct Hc as [Hb _].
  apply negb_true_iff in Hb. now rewrite Hb, IH.
Qed.

Lemma split_on_plain (p : string) :
  plain p = true -> py_split_on "," p = [p].
Proof.
  induction p as [|c r IH]; [reflexivity|]. cbn [plain py_split_on].
  intros H. apply andb_true_iff in H. destruct H as [Hc Hr].
  apply andb_true_iff in Hc. destruct Hc as [_ Hcomma].
  apply negb_true_iff in Hcomma. now rewrite Hcomma, (IH Hr).
Qed.

Lemma split_on_plain_comma (p u : string) :
  plain p = true ->
  py_split_on "," (p ++ String "," u) = p :: py_split_on "," u.
Proof.
  induction p as [|c r IH]; [reflexivity|]. cbn [plain append py_split_on].
  intros H. apply andb_true_iff in H. destruct H as [Hc Hr].
  apply andb_true_iff in Hc. destruct Hc as [_ Hcomma].
  apply negb_true_iff in Hcomma. now rewrite Hcomma, (IH Hr).
Qed.

Lemma concat_cons (sep x : string) (y : string) (l : list string) :
  String.concat sep (x :: y :: l)
  = (x ++ sep ++ String.concat sep (y :: l))%string.
Proof. reflexivity. Qed.

(** Joining plain tokens with commas and splitting on commas gives the
    tokens back. *)
Lemma split_on_join (ring : list string) :
  ring <> [] -> Forall (fun t => plain t = true) ring ->
  py_split_on "," (String.concat "," ring) = ring.
Proof.
  induction ring as [|x rest IH]; [congruence|]. intros _ Hall.
  inversion Hall as [|? ? Hx Hrest]; subst.
  destruct rest as [|y rest'].
  - cbn [String.concat]. now apply split_on_plain.
  - rewrite concat_cons.
    change ("," ++ String.concat "," (y :: rest'))%string
      with (String "," (String.concat "," (y :: rest'))).
    rewrite (split_on_plain_comma _ _ Hx). f_equal.
    apply IH; [discriminate|exact Hrest].
Qed.

Lemma join_no_bracket (ring : list string) :
  Forall (fun t => plain t = true) ring ->
  strip_brackets (String.concat "," ring) = String.concat "," ring.
Proof.
  induction ring as [|x rest IH]; [reflexivity|]. intros Hall.
  inversion Hall as [|? ? Hx Hrest]; subst.
  destruct rest as [|y rest'].
  - cbn [String.concat]. now apply plain_no_bracket.
  - rewrite concat_cons, !strip_brackets_app, (plain_no_bracket _ Hx).
    now rewrite (IH Hrest).
Qed.

Lemma prefix_join (p x : string) (rest : list string) :
  (p ++ String.concat "," (x :: rest))%string
  = String.concat "," ((p ++ x)%string :: rest).
Proof.
  destruct rest as [|y rest']; [reflexivity|].
  rewrite !concat_cons. now rewrite append_assoc.
Qed.

(** No text that starts with the letter P is a float literal. *)
Lemma float_rejects_P (x : string) : float_accepts (String "P" x) = false.
Proof.
  unfold float_accepts, float_value. cbn [drop_underscores].
  change (Ascii.eqb "P" "_") with false.
  change (Ascii.eqb "000" "_") with false. cbn [andb].
  destruct (drop_underscores "P" x) as [y|]; [|reflexivity].
  cbn [option_map lstrip_by]. change (float_isspace "P") with false.
  cbn [rstrip_by].
  destruct (rstrip_by float_isspace y); reflexivity.
Qed.

Lemma validator_rejects_P (x : string) :
  passes_validator (String "P" x) = false.
Proof.
  rewrite validate_coordinate_unfold, split_strip. unfold py_split.
  cbn [split_scan]. change (py_isspace "P") with false.
  destruct (split_scan x) as [t ts]. cbn [cons_token].
  destruct ts as [|b [|c l]]; try reflexivity.
  now rewrite float_rejects_P.
Qed.

Lemma kept_tokens_tidy (s t : string) :
  In t (filter passes_validator
          (map py_strip (py_split_on "," (strip_brackets s)))) ->
  plain t = true /\ py_strip t = t /\ passes_validator t = true.
Proof.
  intros Hin. apply filter_In in Hin. destruct Hin as [Hin Hok].
  apply in_map_iff in Hin. destruct Hin as (t0 & <- & Hin0).
  pose proof (split_tokens_plain s) as Hall.
  rewrite Forall_forall in Hall.
  split; [apply plain_strip; now apply Hall|].
  split; [apply strip_idempotent|exact Hok].
Qed.

Lemma close_ring_in (kept : list string) (t : string) :
  In t (close_ring kept) -> In t kept.
Proof.
  destruct kept as [|first rest]; [auto|]. cbn [close_ring].
  destruct (String.eqb first (List.last (first :: rest) first)); [auto|].
  intros H. apply in_app_or in H. destruct H as [H|[<-|[]]]; [exact H|].
  now left.
Qed.

Lemma refilter_tidy (l : list string) :
  (forall t, In t l -> py_strip t = t /\ passes_validator t = true) ->
  filter passes_validator (map py_strip l) = l.
Proof.
  induction l as [|x rest IH]; [reflexivity|]. intros H.
  destruct (H x (or_introl eq_refl)) as [Hs Hp].
  cbn [map filter]. rewrite Hs, Hp. f_equal.
  apply IH. intros t Ht. apply H. now right.
Qed.

(** X15: normalising the text that [prepare_polygon] returned does not
    give it back: the brackets of [POLYGON((] are removed, the first token
    then starts with the word POLYGON and fails validation, so the ring is
    read without its first vertex and closed again. *)
Theorem renormalising_drops_first_vertex (s w : string)
    (st st' : run_state) :
  snd (prepare_polygon (PyStr s) st) = Ret (Some w) ->
  exists first second rest,
    w = ("POLYGON((" ++ String.concat "," (first :: second :: rest)
         ++ "))")%string
    /\ snd (prepare_polygon (PyStr w) st')
       = Ret (if (List.length (close_ring (second :: rest)) <? 4)%nat
              then None
              else Some ("POLYGON(("
                         ++ String.concat "," (close_ring (second :: rest))
                         ++ "))")%string).
Proof.
  rewrite !prepare_polygon_str. cbn [snd]. unfold polygon_pipeline at 1.
  set (kept := filter passes_validator
                 (map py_strip (py_split_on "," (strip_brackets s)))).
  destruct (List.length kept <? 3)%nat eqn:H3; [discriminate|].
  destruct (List.length (close_ring kept) <? 4)%nat eqn:H4; [discriminate|].
  intros E. apply Nat.ltb_ge in H4.
  assert (Hw : w = ("POLYGON((" ++ String.concat "," (close_ring kept)
                    ++ "))")%string)
    by (injection E as E; symmetry; exact E).
  clear E.
  assert (Htidy : forall t, In t (close_ring kept) ->
                    plain t = true /\ py_strip t = t
                    /\ passes_validator t = true).
  { intros t Ht. apply (kept_tokens_tidy s). now apply close_ring_in. }
  destruct (close_ring kept) as [|first [|second rest]] eqn:Hring;
    [cbn in H4; lia|cbn in H4; lia|].
  exists first, second, rest. split; [exact Hw|]. f_equal.
  rewrite Hw. unfold polygon_pipeline.
  assert (Hplain : Forall (fun t => plain t = true)
                     (first :: second :: rest)).
  { apply Forall_forall. intros t Ht. now apply Htidy. }
  rewrite !strip_brackets_app, (join_no_bracket _ Hplain).
  change (strip_brackets "POLYGON((") with "POLYGON".
  change (strip_brackets "))") with EmptyString.
  rewrite append_empty_r, prefix_join.
  rewrite split_on_join.
  2: discriminate.
  2: { inversion Hplain as [|? ? Hf Hrest]; subst.
       constructor; [|exact Hrest]. now apply plain_app. }
  rewrite map_cons. cbn [filter].
  rewrite (passes_validator_split _ ("POLYGON" ++ first)%string
             (split_strip _)).
  change ("POLYGON" ++ first)%string with (String "P" ("OLYGON" ++ first)).
  rewrite validator_rejects_P.
  rewrite refilter_tidy.
  2: { intros t Ht. destruct (Htidy t) as (_ & Hs & Hp); [|now split].
       right. exact Ht. }
  assert (Hlen : (List.length (second :: rest) <? 3)%nat = false)
    by (apply Nat.ltb_ge; cbn in *; lia).
  now rewrite Hlen.
Qed.

Example renormalising_example :
  polygon_pipeline "(1 1,2 2,3 3)" = Some "POLYGON((1 1,2 2,3 3,1 1))"
  /\ polygon_pipeline "POLYGON((1 1,2 2,3 3,1 1))"
     = Some "POLYGON((2 2,3 3,1 1,2 2))".
Proof. split; vm_compute; reflexivity. Qed.

(** ** Instances of the properties above *)

Lemma fault_before_commit_witness :
  exists st',
    process_window env_execute_fault 0 [row_shenyang] init_state
    = (st', Ret tt)
    /\ success_rows st' = success_rows init_state
    /\ failed_rows st'
       = failed_rows init_state + failures [row_shenyang]
         + List.length (candidates [row_shenyang])
    /\ geo_table st' = geo_table init_state
    /\ (sink_calls st' = sink_calls init_state
        \/ sink_calls st'
           = sink_calls init_state ++ [candidates [row_shenyang]])
    /\ run_windows 0 [Window env_execute_fault [row_shenyang]] init_state
       = run_windows (0 + 1) [] st'.
Proof.
  apply (fault_before_commit env_execute_fault 0 [row_shenyang] []
           init_state).
  - right. reflexivity.
  - vm_compute. discriminate.
  - right. reflexivity.
  - reflexivity.
Defined.

Lemma counters_partition_witness :
  total_rows
    (fst (process_window env_execute_fault 0
            [row_text_1; row_text_bad_id; row_text_3] init_state))
  = success_rows
      (fst (process_window env_execute_fault 0
              [row_text_1; row_text_bad_id; row_text_3] init_state))
    + failed_rows
        (fst (process_window env_execute_fault 0
                [row_text_1; row_text_bad_id; row_text_3] init_state)).
Proof.
  apply (counters_partition_rows env_execute_fault 0
           [row_text_1; row_text_bad_id; row_text_3] init_state).
  - cbn. discriminate.
  - vm_compute. reflexivity.
  - reflexivity.
Defined.

Lemma zero_elapsed_time_witness :
  snd (process_window env_clock_stalled 0 [row_shenyang] init_state)
  = Raise ZeroDivisionError
  /\ run_try (run_windows 0 [Window env_clock_stalled [row_shenyang];
                             Window env_ok [row_open_area]])
             (fun e => emit (CriticalAborted e)) init_state
     = (add_log (CriticalAborted ZeroDivisionError)
          (fst (process_window env_clock_stalled 0 [row_shenyang]
                  init_state)), Ret tt)
  /\ total_rows (fst (process_window env_clock_stalled 0 [row_shenyang]
                        init_state))
     = total_rows init_state + List.length [row_shenyang]
  /\ geo_table (fst (process_window env_clock_stalled 0 [row_shenyang]
                       init_state))
     = geo_table init_state
       ++ match sink env_clock_stalled with
          | SinkCommits => candidates [row_shenyang]
          | _ => []
          end.
Proof.
  apply (zero_elapsed_time_ends_run env_clock_stalled 0 [row_shenyang]
           [Window env_ok [row_open_area]] init_state).
  - reflexivity.
  - right. reflexivity.
Defined.

Lemma stream_with_faults_commits : Forall commit_holds stream_with_faults.
Proof. repeat constructor; cbn; discriminate. Defined.

Lemma success_rows_witness :
  List.length (geo_table (fst (import_data stream_with_faults false
                                 init_state)))
  = List.length (geo_table init_state)
    + success_rows (fst (import_data stream_with_faults false init_state)).
Proof.
  exact (success_rows_are_committed stream_with_faults false init_state
           stream_with_faults_commits).
Defined.




Example stream_runs :
  total_rows (fst (import_data stream_reported false init_state)) = 5
  /\ success_rows (fst (import_data stream_reported false init_state)) = 2
  /\ failed_rows (fst (import_data stream_reported false init_state)) = 3
  /\ total_rows (fst (import_data stream_with_faults false init_state)) = 3
  /\ success_rows (fst (import_data stream_with_faults false init_state)) = 1
  /\ List.length
       (geo_table (fst (import_data stream_with_faults false init_state)))
     = 1.
Proof. repeat split; vm_compute; reflexivity. Qed.

Lemma closed_ring_witness :
  exists first middle,
    "POLYGON((1 1,2 2,3 3,1 1))"
    = ("POLYGON((" ++ String.concat "," (first :: middle ++ [first])
       ++ "))")%string
    /\ 2 <= List.length middle
    /\ Forall (fun t => passes_validator t = true) (first :: middle).
Proof.
  apply (polygon_result_is_closed_ring "(1 1,2 2,3 3)"
           "POLYGON((1 1,2 2,3 3,1 1))" init_state).
  vm_compute. reflexivity.
Defined.

Lemma ignores_brackets_witness :
  snd (prepare_polygon (PyStr "(1 1,2 2,3 3),(4 4,5 5,6 6)") init_state)
  = snd (prepare_polygon (PyStr "1 1,2 2,3 3,4 4,5 5,6 6") init_state).
Proof.
  apply (polygon_ignores_brackets "(1 1,2 2,3 3),(4 4,5 5,6 6)"
           "1 1,2 2,3 3,4 4,5 5,6 6" init_state init_state).
  reflexivity.
Defined.

Lemma renormalising_witness :
  exists first second rest,
    "POLYGON((1 1,2 2,3 3,1 1))"
    = ("POLYGON((" ++ String.concat "," (first :: second :: rest)
       ++ "))")%string
    /\ snd (prepare_polygon (PyStr "POLYGON((1 1,2 2,3 3,1 1))") init_state)
       = Ret (if (List.length (close_ring (second :: rest)) <? 4)%nat
              then None
              else Some ("POLYGON(("
                         ++ String.concat "," (close_ring (second :: rest))
                         ++ "))")%string).
Proof.
  apply (renormalising_drops_first_vertex "(1 1,2 2,3 3)"
           "POLYGON((1 1,2 2,3 3,1 1))" init_state init_state).
  vm_compute. reflexivity.
Defined.
